(** * Route statistics of the [linkerd routes] command (cli/cmd/routes.go)

    A shallow embedding of the request builder, the response aggregation,
    the route ordering and the JSON renderer, and the properties the
    specification states about them.

    Conventions of the embedding:
    - a Go [string] is a Rocq [string] (a sequence of bytes), [len] is its
      number of bytes as an [int] (a [Z]; no arithmetic is done on it);
    - a [map[string]*rowStats] is a [gmap string rowStats]; a [range] over
      it visits the keys in an unspecified order, so the loop of
      [sortRoutes] is written over an explicit key enumeration and shown
      not to depend on it;
    - a pointer that may be [nil] is an [option];
    - a [float64] is an IEEE-754 value ([spec_float]), a [uint64] an [N];
    - effects (writes to the tab writer and to standard error, logging,
      calls of the collaborators, [os.Exit]) are events appended to a
      trace, threaded through a small monad. *)

From Stdlib Require Import ZArith String Ascii List.
From Stdlib Require Import Floats.SpecFloat.
From stdpp Require Import gmap strings list sorting pretty.

Local Open Scope Z_scope.
Local Open Scope string_scope.
Local Open Scope list_scope.

(** ** Basic types *)

Abbreviation float64 := spec_float.
Abbreviation uint64 := N.

(** [len(s)] of a Go string: its length in bytes, an [int]. *)
Definition len (s : string) : Z := Z.of_nat (String.length s).

(** The fields of [rowStats] that routes.go sets and reads. *)
Record rowStats := mkRowStats {
  dst : string;
  requestRate : float64;
  successRate : float64;
  tlsPercent : float64;
  latencyP50 : uint64;
  latencyP95 : uint64;
  latencyP99 : uint64
}.

Definition defaultRoute : string := "[UNKNOWN]".

(** ** Route ordering: [sortRoutes] *)

Module Ordering.

(** The three local variables of [sortRoutes]. *)
Record locals := mkLocals {
  sortedRoutes : list string;
  maxLength : Z;
  hasDefaultRoute : bool
}.

Definition init : locals :=
  {| sortedRoutes := []; maxLength := len defaultRoute; hasDefaultRoute := false |}.

(** One iteration of [for key := range stats]. *)
Definition step (st : locals) (key : string) : locals :=
  if decide (key = "") then
    {| sortedRoutes := sortedRoutes st; maxLength := maxLength st;
       hasDefaultRoute := true |}
  else
    {| sortedRoutes := sortedRoutes st ++ [key];
       maxLength := if decide (len key > maxLength st) then len key else maxLength st;
       hasDefaultRoute := hasDefaultRoute st |}.

(** [sort.Strings]: sorts in increasing byte-wise order ([String.le] is
    [String.leb], which compares byte by byte, a proper prefix first). *)
Definition sort_Strings (l : list string) : list string := merge_sort String.le l.

(** [sortRoutes] for the order [keys] in which the [range] loop visits
    the keys of the map. *)
Definition sortRoutes_range (keys : list string) : list string * Z :=
  let st := foldl step init keys in
  let sorted := sort_Strings (sortedRoutes st) in
  (if hasDefaultRoute st then sorted ++ [""] else sorted, maxLength st).

End Ordering.

(** The keys of a map in the order a [range] loop visits them. *)
Definition range_keys {V} (m : gmap string V) : list string := (map_to_list m).*1.

Definition sortRoutes (stats : gmap string rowStats) : list string * Z :=
  Ordering.sortRoutes_range (range_keys stats).

(** [a] occurs in [l] at a smaller index than [b]. *)
Definition precedes (a b : string) (l : list string) : Prop :=
  ∃ i j : nat, (i < j)%nat ∧ l !! i = Some a ∧ l !! j = Some b.

(** The largest of [base] and the elements of [l]. *)
Definition Zmax_list (base : Z) (l : list Z) : Z := foldr Z.max base l.

(** The keys of a table other than the empty label. *)
Definition labelled (keys : list string) : list string :=
  filter (λ k, k ≠ "") keys.

(** ** Errors, events and the effect monad *)

(** Go [error] values. [fmt_Errorf prefix cause] is
    [fmt.Errorf(prefix + "%v", cause)]; [UnsupportedValueError] is the
    error of [encoding/json] for a [float64] that JSON cannot express. *)
Inductive error :=
  | errors_New (msg : string)
  | fmt_Errorf (prefix : string) (cause : error)
  | UnsupportedValueError (v : float64)
  | InvalidOutputFormat.

Module util.
(** [util.StatsBaseRequestParams], the fields routes.go sets. *)
Record StatsBaseRequestParams := {
  TimeWindow : string;
  ResourceName : string;
  ResourceType : string;
  Namespace : string
}.

Record TopRoutesRequestParams := {
  Base : StatsBaseRequestParams;
  ToService : string;
  ToAll : bool
}.
End util.

Module pb.
(** [pb.Resource]: the target that [util.BuildResource] resolves. *)
Record Resource := { Namespace : string; Type_ : string; Name : string }.

(** [pb.RouteTable_Row]; [Stats] is a pointer, [None] when [nil]. *)
Record Row (BasicStats : Type) := {
  Route : string;
  TimeWindow : string;
  Stats : option BasicStats;
  Dst : string
}.
Arguments Route {_} _.
Arguments TimeWindow {_} _.
Arguments Stats {_} _.
Arguments Dst {_} _.

(** [pb.TopRoutesResponse]: a one-of that holds an error, a route table
    or nothing. *)
Inductive TopRoutesResponse (BasicStats : Type) :=
  | Response_Error (e : string)
  | Response_Routes (rows : list (Row BasicStats))
  | Response_NotSet.
Arguments Response_Error {_} _.
Arguments Response_Routes {_} _.
Arguments Response_NotSet {_}.
End pb.

(** The fields of [statOptionsBase] that routes.go reads. *)
Record statOptionsBase := {
  namespace : string;
  timeWindow : string;
  outputFormat : string
}.

(** [routesOptions]; [optionsBase] is the embedded [statOptionsBase]. *)
Record routesOptions := {
  optionsBase : statOptionsBase;
  toService : string;
  toServiceNamespace : string;
  toAll : bool;
  toExternal : string
}.

(** Observable effects, in the order they happen. *)
Inductive event (Request : Type) :=
  | EvWrite (s : string)
  | EvStderr (s : string)
  | EvStdout (s : string)
  | EvLogError (e : error)
  | EvBuildResource (ns arg : string)
  | EvBuildTopRoutesRequest (p : util.TopRoutesRequestParams)
  | EvTopRoutes (req : Request).
Arguments EvWrite {_} _.
Arguments EvStderr {_} _.
Arguments EvStdout {_} _.
Arguments EvLogError {_} _.
Arguments EvBuildResource {_} _ _.
Arguments EvBuildTopRoutesRequest {_} _.
Arguments EvTopRoutes {_} _.

(** How a computation ends: it returns, the process exits ([os.Exit]) or
    the goroutine panics. *)
Inductive result (A : Type) :=
  | Ret (a : A)
  | Exited (code : Z)
  | Panicked.
Arguments Ret {_} _.
Arguments Exited {_} _.
Arguments Panicked {_}.

(** A computation: its result and the events it produced. *)
Definition M (Request A : Type) : Type := result A * list (event Request).

Definition ret {Request A} (a : A) : M Request A := (Ret a, []).

Definition bind {Request A B} (m : M Request A) (f : A → M Request B) : M Request B :=
  match m with
  | (Ret a, t) => let '(r, t') := f a in (r, t ++ t')
  | (Exited c, t) => (Exited c, t)
  | (Panicked, t) => (Panicked, t)
  end.

Definition emit {Request} (e : event Request) : M Request unit := (Ret tt, [e]).
Definition os_Exit {Request A} (code : Z) : M Request A := (Exited code, []).
Definition panic {Request A} : M Request A := (Panicked, []).

#[global] Instance M_ret {Request} : MRet (M Request) := @ret Request.
#[global] Instance M_bind {Request} : MBind (M Request) := λ A B f m, bind m f.

(** The bytes written to the tab writer, in order. *)
Definition written {Request} (t : list (event Request)) : string :=
  foldr (λ e acc, match e with EvWrite s => s +:+ acc | _ => acc end) "" t.

(** Characters that a Rocq string literal cannot hold directly. *)
Definition nl : string := String "010" "".
Definition tab : string := String "009" "".
Definition dq : string := String "034" "".

(** ** The JSON document of [printRouteJson] *)

(** [jsonRouteStats]: the pointer fields are [None] when [nil]. *)
Record jsonRouteStats := {
  Route : string;
  Service : string;
  Success : option float64;
  Rps : option float64;
  LatencyMSp50 : option uint64;
  LatencyMSp95 : option uint64;
  LatencyMSp99 : option uint64;
  Tls : option float64
}.

(** The JSON values that occur in the document. *)
Inductive jvalue :=
  | JNull
  | JString (s : string)
  | JFloat (f : float64)
  | JUint (n : uint64).

(** [encoding/json] writes a [nil] pointer as [null] and any other
    pointer as the value it points to. *)
Definition ptr_value {A} (inj : A → jvalue) (p : option A) : jvalue :=
  from_option inj JNull p.

(** The fields of the object of an entry, in the order of the struct and
    under the names of its [json] tags. *)
Definition json_fields (e : jsonRouteStats) : list (string * jvalue) :=
  [ ("route", JString (Route e));
    ("service", JString (Service e));
    ("success", ptr_value JFloat (Success e));
    ("rps", ptr_value JFloat (Rps e));
    ("latency_ms_p50", ptr_value JUint (LatencyMSp50 e));
    ("latency_ms_p95", ptr_value JUint (LatencyMSp95 e));
    ("latency_ms_p99", ptr_value JUint (LatencyMSp99 e));
    ("tls", ptr_value JFloat (Tls e)) ].

(** The value of the field [name] of the object of [e]. *)
Fixpoint lookup_field (name : string) (fields : list (string * jvalue)) : option jvalue :=
  match fields with
  | [] => None
  | (k, v) :: fields' => if String.eqb k name then Some v else lookup_field name fields'
  end.

Definition json_field (name : string) (e : jsonRouteStats) : option jvalue :=
  lookup_field name (json_fields e).

Definition IsNaN (f : float64) : bool :=
  match f with S754_nan => true | _ => false end.
Definition IsInf (f : float64) : bool :=
  match f with S754_infinity _ => true | _ => false end.

(** Runs [f] over [l] from left to right and stops at the first error. *)
Fixpoint mapE {A B} (f : A → error + B) (l : list A) : error + list B :=
  match l with
  | [] => inr []
  | x :: l' =>
      match f x with
      | inl e => inl e
      | inr y => match mapE f l' with inl e => inl e | inr ys => inr (y :: ys) end
      end
  end.

(** A line break followed by the indentation of nesting depth [d]
    ([json.MarshalIndent] with prefix [""] and indent ["  "]). *)
Fixpoint indentation (d : nat) : string :=
  match d with O => "" | S d' => "  " +:+ indentation d' end.
Definition newline (d : nat) : string := nl +:+ indentation d.

(** A bracketed, comma-separated, indented sequence at depth [d]. *)
Definition bracketed (open close : string) (d : nat) (items : list string) : string :=
  match items with
  | [] => open +:+ close
  | _ => open +:+ newline (S d) +:+ String.concat ("," +:+ newline (S d)) items
         +:+ newline d +:+ close
  end.

(** 100 as a [float64]: 100 = 7036874417766400 * 2^-46. *)
Definition float_100 : float64 := S754_finite false 7036874417766400 (-46).
(** Multiplication of [float64] values (53 bits of precision). *)
Definition fmul (x y : float64) : float64 := SFmul 53 1024 x y.

(** ** A concrete instance of the parameters *)

(** Stand-ins for the parameters of the section [Routes] below, to run
    the operations on concrete inputs: the stats payload is the derived
    row itself, a request is its parameters, the resolver accepts every
    argument as a deployment, the API answers with the rows [answer],
    strings are quoted without escaping and a number is written as its
    mantissa and binary exponent. *)
Module Example.
Definition BasicStats : Type := rowStats.
Definition Request : Type := util.TopRoutesRequestParams.

Definition BuildResource (ns arg : string) : error + pb.Resource :=
  inr {| pb.Namespace := ns; pb.Type_ := "deployment"; pb.Name := arg |}.
Definition BuildTopRoutesRequest (p : util.TopRoutesRequestParams) : error + Request :=
  inr p.
Definition client : M Request unit := (Ret tt, []).
Definition TopRoutes (answer : list (pb.Row BasicStats)) (req : Request)
    : error + pb.TopRoutesResponse BasicStats :=
  inr (pb.Response_Routes answer).
Definition quote (s : string) : string := dq +:+ s +:+ dq.
Definition formatFloat (f : float64) : string :=
  match f with
  | S754_finite s m e =>
      (if s then "-" else "") +:+ pretty (Npos m) +:+ "p" +:+ pretty e
  | _ => "0"
  end.
Definition Sprintf_f (_ : nat) (f : float64) : string := formatFloat f.
Definition flush (s : string) : string := s.
Definition renderStats (s : string) (_ : statOptionsBase) : string := s.
Definition Print (_ : string) : option error := None.

Definition one : float64 := S754_finite false 4503599627370496 (-52).
Definition row (d : string) (rate : float64) : rowStats :=
  {| dst := d; requestRate := rate; successRate := one; tlsPercent := one;
     latencyP50 := 1; latencyP95 := 2; latencyP99 := 3 |}.

Definition options (format svc ns ext : string) (all : bool) : routesOptions :=
  {| optionsBase := {| namespace := "test"; timeWindow := "1m"; outputFormat := format |};
     toService := svc; toServiceNamespace := ns; toAll := all; toExternal := ext |}.
End Example.

(** ** The command *)

Section Routes.

(** What routes.go takes from the rest of the repository and from the
    libraries: the generated protocol types, the metrics derivation and
    the request construction of [controller/api/util], the API client,
    and the text formatting of [encoding/json], [fmt] and
    [text/tabwriter]. *)
Variable BasicStats : Type.
Variable TopRoutesRequest : Type.
Variables LatencyMsP50 LatencyMsP95 LatencyMsP99 : BasicStats → uint64.
Variable GetRequestRate : BasicStats → string → float64.
Variables GetSuccessRate GetPercentTls : BasicStats → float64.
Variable BuildResource : string → string → error + pb.Resource.
Variable BuildTopRoutesRequest : util.TopRoutesRequestParams → error + TopRoutesRequest.
Variable validatedPublicAPIClient : M TopRoutesRequest unit.
Variable TopRoutes : TopRoutesRequest → error + pb.TopRoutesResponse BasicStats.
(** [encodeString s]: the JSON string literal of [s];
    [formatFloat f]: the JSON number of a finite [f]. *)
Variable encodeString : string → string.
Variable formatFloat : float64 → string.
(** [Sprintf_f n f]: [fmt.Sprintf("%.nf", f)]. *)
Variable Sprintf_f : nat → float64 → string.
Variable RuneCountInString : string → nat.
(** The layout of the tab writer when it is flushed, and [renderStats]. *)
Variable tabwriter_Flush : string → string.
Variable renderStats : string → statOptionsBase → string.
(** [fmt_Print s]: the error that [fmt.Print(s)] returns, [None] when
    the write to standard output succeeds. *)
Variable fmt_Print : string → option error.
(** The value of [*newStatOptionsBase()], the defaults of the embedded
    options. *)
Variable newStatOptionsBase : statOptionsBase.

Abbreviation Row := (pb.Row BasicStats).
Abbreviation eff := (M TopRoutesRequest).
Abbreviation table := (gmap string rowStats).

(** *** Response aggregation (the loop of [writeRouteStatsToBuffer]) *)

Definition newRowStats (r : Row) (stats : BasicStats) : rowStats :=
  {| dst := pb.Dst r;
     requestRate := GetRequestRate stats (pb.TimeWindow r);
     successRate := GetSuccessRate stats;
     tlsPercent := GetPercentTls stats;
     latencyP50 := LatencyMsP50 stats;
     latencyP95 := LatencyMsP95 stats;
     latencyP99 := LatencyMsP99 stats |}.

(** One iteration of [for _, r := range resp.GetRoutes().Rows]. *)
Definition aggregate_step (t : table) (r : Row) : table :=
  match pb.Stats r with
  | Some stats => <[pb.Route r := newRowStats r stats]> t
  | None => t
  end.

Definition aggregate (rows : list Row) : table := foldl aggregate_step ∅ rows.

(** *** JSON renderer *)

(** The body of the loop of [printRouteJson]. *)
Definition jsonEntry (stats : table) (route : string) : jsonRouteStats :=
  let Route0 := if decide (route = "") then "[UNKNOWN]" else route in
  match stats !! route with
  | Some row =>
      {| Route := Route0; Service := dst row;
         Success := Some (successRate row); Rps := Some (requestRate row);
         LatencyMSp50 := Some (latencyP50 row);
         LatencyMSp95 := Some (latencyP95 row);
         LatencyMSp99 := Some (latencyP99 row);
         Tls := Some (tlsPercent row) |}
  | None =>
      {| Route := Route0; Service := "";
         Success := None; Rps := None;
         LatencyMSp50 := None; LatencyMSp95 := None; LatencyMSp99 := None;
         Tls := None |}
  end.

(** The loop of [printRouteJson] over a sequence of routes. *)
Definition jsonEntries (stats : table) (routes : list string) : list jsonRouteStats :=
  jsonEntry stats <$> routes.

Definition encodeValue (v : jvalue) : error + string :=
  match v with
  | JNull => inr "null"
  | JString s => inr (encodeString s)
  | JFloat f => if IsNaN f || IsInf f then inl (UnsupportedValueError f)
                else inr (formatFloat f)
  | JUint n => inr (pretty n)
  end.

Definition encodeField (kv : string * jvalue) : error + string :=
  match encodeValue kv.2 with
  | inl e => inl e
  | inr v => inr (dq +:+ kv.1 +:+ dq +:+ ": " +:+ v)
  end.

Definition encodeObject (d : nat) (e : jsonRouteStats) : error + string :=
  match mapE encodeField (json_fields e) with
  | inl e => inl e
  | inr fields => inr (bracketed "{" "}" d fields)
  end.

(** [json.MarshalIndent(entries, "", "  ")]. *)
Definition MarshalIndent (entries : list jsonRouteStats) : error + string :=
  match mapE (encodeObject 1) entries with
  | inl e => inl e
  | inr objects => inr (bracketed "[" "]" 0 objects)
  end.

Definition printRouteJson (stats : table) : eff unit :=
  let entries := jsonEntries stats (sortRoutes stats).1 in
  match MarshalIndent entries with
  | inl err => emit (EvLogError err)
  | inr b => emit (EvWrite (b +:+ nl))
  end.

(** *** Table renderer *)

Fixpoint spaces (n : nat) : string :=
  match n with O => "" | S n' => " " +:+ spaces n' end.

(** [fmt.Sprintf("%-<width>s", s)]: [s] padded on the right with spaces
    to [width] characters. *)
Definition Sprintf_left (width : Z) (s : string) : string :=
  s +:+ spaces (Z.to_nat (width - Z.of_nat (RuneCountInString s))).

(** Runs [f] on the elements of [l] in order. *)
Fixpoint for_each {A} (l : list A) (f : A → eff unit) : eff unit :=
  match l with
  | [] => mret tt
  | x :: l' => f x ;; for_each l' f
  end.

Definition noTrafficMessage : string :=
  "No traffic found.  Does the service have a service profile?  You can create one with the `linkerd profile` command.".

Definition printRouteTable (stats : table) (options : routesOptions) : eff unit :=
  let '(sortedRoutes, routeWidth) := sortRoutes stats in
  let headers := [ Sprintf_left routeWidth "ROUTE"; "SERVICE"; "SUCCESS"; "RPS";
                   "LATENCY_P50"; "LATENCY_P95"; "LATENCY_P99"; "TLS" +:+ tab ] in
  emit (EvWrite (String.concat tab headers +:+ nl)) ;;
  for_each sortedRoutes (λ route,
    match stats !! route with
    | Some row =>
        let route := if decide (route = "") then defaultRoute else route in
        emit (EvWrite (
          Sprintf_left routeWidth route +:+ tab +:+
          dst row +:+ tab +:+
          Sprintf_f 2 (fmul (successRate row) float_100) +:+ "%" +:+ tab +:+
          Sprintf_f 1 (requestRate row) +:+ "rps" +:+ tab +:+
          pretty (latencyP50 row) +:+ "ms" +:+ tab +:+
          pretty (latencyP95 row) +:+ "ms" +:+ tab +:+
          pretty (latencyP99 row) +:+ "ms" +:+ tab +:+
          Sprintf_f 0 (fmul (tlsPercent row) float_100) +:+ "%" +:+ tab +:+ nl))
    | None =>
        emit (EvWrite (route +:+ tab +:+ "-" +:+ tab +:+ "-" +:+ tab +:+ "-" +:+ tab +:+
                       "-" +:+ tab +:+ "-" +:+ tab +:+ "-" +:+ tab +:+ "-" +:+ tab +:+ nl))
    end).

(** *** [writeRouteStatsToBuffer] *)

(** [resp.GetRoutes().Rows]: a nil-pointer dereference when the response
    holds no route table. *)
Definition GetRoutes_Rows (resp : pb.TopRoutesResponse BasicStats) : eff (list Row) :=
  match resp with
  | pb.Response_Routes rows => mret rows
  | _ => panic
  end.

(** The [switch] on the output format, for the aggregated table. *)
Definition render (t : table) (options : routesOptions) : eff unit :=
  let format := outputFormat (optionsBase options) in
  if decide (format = "table" ∨ format = "") then
    (if decide (size t = 0%nat) then
       emit (EvStderr (noTrafficMessage +:+ nl)) ;; os_Exit 0
     else mret tt) ;;
    printRouteTable t options
  else if decide (format = "json") then
    printRouteJson t
  else mret tt.

Definition writeRouteStatsToBuffer (resp : pb.TopRoutesResponse BasicStats)
    (options : routesOptions) : eff unit :=
  rows ← GetRoutes_Rows resp;
  render (aggregate rows) options.

Definition renderRouteStats (resp : pb.TopRoutesResponse BasicStats)
    (options : routesOptions) : eff string :=
  let '(r, t) := writeRouteStatsToBuffer resp options in
  match r with
  | Ret _ =>
      (* the buffer holds what the call above wrote to [w] *)
      (Ret (renderStats (tabwriter_Flush (written t)) (optionsBase options)), t)
  | Exited code => (Exited code, t)
  | Panicked => (Panicked, t)
  end.

(** *** [newRoutesOptions] *)

Definition newRoutesOptions : routesOptions :=
  {| optionsBase := newStatOptionsBase;
     toService := "";
     toServiceNamespace := "";
     toAll := false;
     toExternal := "" |}.

(** *** Request builder *)

(** Modelled from the spec: [validateOutputFormat], a method of
    [statOptionsBase] that is not part of routes.go. It accepts the
    formats table, json and the empty one, and fails with
    [InvalidOutputFormat] for any other. [None] is Go's [nil] error. *)
Definition validateOutputFormat (o : statOptionsBase) : option error :=
  if decide (outputFormat o = "table" ∨ outputFormat o = "json" ∨ outputFormat o = "")
  then None else Some InvalidOutputFormat.

Definition errToExternalToService : error :=
  errors_New (dq +:+ "--to-external" +:+ dq +:+ " and " +:+ dq +:+ "--to-service"
              +:+ dq +:+ " are mutually exclusive").

Definition errToAll : error :=
  errors_New (dq +:+ "--to-all" +:+ dq +:+ " cannot be used with " +:+ dq
              +:+ "--to-service" +:+ dq +:+ " or " +:+ dq +:+ "--to-external" +:+ dq).

(** The value of the local [toService] after the first [if]: the
    qualified name of the [--to-service] option. *)
Definition qualifiedToService (options : routesOptions) : string :=
  if decide (toService options ≠ "") then
    let toNamespace :=
      if decide (toServiceNamespace options = "")
      then namespace (optionsBase options) else toServiceNamespace options in
    toService options +:+ "." +:+ toNamespace +:+ ".svc.cluster.local"
  else "".

(** The end of [buildTopRoutesRequest], from the check of [--to-all] on,
    for the value [toService] of the local of that name. *)
Definition finishRequest (options : routesOptions)
    (base : util.StatsBaseRequestParams) (toService : string)
    : eff (error + TopRoutesRequest) :=
  if decide (toService ≠ "" ∧ toAll options = true) then
    mret (inl errToAll)
  else
    let requestParams :=
      {| util.Base := base;
         util.ToService := if decide (toService ≠ "") then toService else "";
         util.ToAll := if toAll options then true else false |} in
    emit (EvBuildTopRoutesRequest requestParams) ;;
    mret (BuildTopRoutesRequest requestParams).

Definition buildTopRoutesRequest (resource : string) (options : routesOptions)
    : eff (error + TopRoutesRequest) :=
  match validateOutputFormat (optionsBase options) with
  | Some err => mret (inl err)
  | None =>
    emit (EvBuildResource (namespace (optionsBase options)) resource) ;;
    match BuildResource (namespace (optionsBase options)) resource with
    | inl err => mret (inl err)
    | inr target =>
      let base :=
        {| util.TimeWindow := timeWindow (optionsBase options);
           util.ResourceName := pb.Name target;
           util.ResourceType := pb.Type_ target;
           util.Namespace := namespace (optionsBase options) |} in
      let toService := qualifiedToService options in
      if decide (toExternal options ≠ "") then
        if decide (toService ≠ "") then
          mret (inl errToExternalToService)
        else finishRequest options base (toExternal options)
      else finishRequest options base toService
    end
  end.

(** *** The command ([RunE] of [newCmdRoutes]) *)

Definition requestRouteStatsFromAPI (req : TopRoutesRequest) (options : routesOptions)
    : eff (error + string) :=
  emit (EvTopRoutes req) ;;
  match TopRoutes req with
  | inl err => mret (inl (fmt_Errorf "TopRoutes API error: " err))
  | inr resp =>
      match resp with
      | pb.Response_Error e =>
          mret (inl (errors_New ("TopRoutes API response error: " +:+ e)))
      | _ => output ← renderRouteStats resp options; mret (inr output)
      end
  end.

(** The error that [RunE] returns; [None] is [nil]. *)
Definition RunE (resource : string) (options : routesOptions) : eff (option error) :=
  r ← buildTopRoutesRequest resource options;
  match r with
  | inl err =>
      mret (Some (fmt_Errorf
        "error creating metrics request while making routes request: " err))
  | inr req =>
      validatedPublicAPIClient ;;
      r ← requestRouteStatsFromAPI req options;
      match r with
      | inl err => mret (Some err)
      | inr output => emit (EvStdout output) ;; mret (fmt_Print output)
      end
  end.

(** *** Notions used in the statements *)

(** The entry that a response row gives, if it carries statistics. *)
Definition rowStats_of_row (r : Row) : option rowStats :=
  newRowStats r <$> pb.Stats r.

(** The rows that decide the entry of the key [k]. *)
Definition rows_for (k : string) (rows : list Row) : list Row :=
  filter (λ r, pb.Route r = k ∧ is_Some (pb.Stats r)) rows.

(** A [float64] that JSON can express: neither NaN nor infinite. *)
Definition finite (f : float64) : bool := negb (IsNaN f || IsInf f).

Definition finite_row (row : rowStats) : bool :=
  finite (successRate row) && finite (requestRate row) && finite (tlsPercent row).

Definition finite_table (stats : table) : Prop :=
  map_Forall (λ _ row, finite_row row = true) stats.

(** The label under which a route is displayed. *)
Definition display (route : string) : string :=
  if decide (route = "") then "[UNKNOWN]" else route.

(** A field with its name, as [json.MarshalIndent] writes it. *)
Definition field_text (name value : string) : string :=
  dq +:+ name +:+ dq +:+ ": " +:+ value.

(** C4 as the specification states it: an array with one object per
    element of the sequence is written. *)
Definition emits_array_of_sequence (stats : table) : Prop :=
  ∃ objects,
    length objects = length (sortRoutes stats).1 ∧
    written (printRouteJson stats).2 = bracketed "[" "]" 0 objects +:+ nl.



(** The parameters that the builder hands to [util.BuildTopRoutesRequest]
    for the target [target] and the destination [toService]. *)
Definition requestParams_for (options : routesOptions) (target : pb.Resource)
    (toService : string) : util.TopRoutesRequestParams :=
  {| util.Base :=
       {| util.TimeWindow := timeWindow (optionsBase options);
          util.ResourceName := pb.Name target;
          util.ResourceType := pb.Type_ target;
          util.Namespace := namespace (optionsBase options) |};
     util.ToService := toService;
     util.ToAll := toAll options |}.

(** The namespace that qualifies the [--to-service] option. *)
Definition toNamespace_of (options : routesOptions) : string :=
  if decide (toServiceNamespace options = "")
  then namespace (optionsBase options) else toServiceNamespace options.

(** The two errors that the specification calls
    [ConflictingDestinationFilter]. *)
Definition ConflictingDestinationFilter (e : error) : Prop :=
  e = errToExternalToService ∨ e = errToAll.

(** C6 as the specification states it, for the two destination options:
    whenever both are set the builder fails with a conflict error. *)
Definition conflict_reported (resource : string) (options : routesOptions) : Prop :=
  toService options ≠ "" → toExternal options ≠ "" →
  ∃ e, (buildTopRoutesRequest resource options).1 = Ret (inl e) ∧
       ConflictingDestinationFilter e.

(** The diagnostic string as the specification quotes it. *)
Definition quotedNoTrafficMessage : string :=
  "No traffic found. Does the service have a service profile?".

(** The lines of the table: the header, the line of a row and the line
    of a key without a row, as [printRouteTable] formats them for the
    width [routeWidth]. *)
Definition tableHeader (routeWidth : Z) : string :=
  String.concat tab
    [ Sprintf_left routeWidth "ROUTE"; "SERVICE"; "SUCCESS"; "RPS";
      "LATENCY_P50"; "LATENCY_P95"; "LATENCY_P99"; "TLS" +:+ tab ] +:+ nl.

Definition tableLine (routeWidth : Z) (route : string) (row : rowStats) : string :=
  Sprintf_left routeWidth (if decide (route = "") then defaultRoute else route)
  +:+ tab +:+ dst row +:+ tab +:+
  Sprintf_f 2 (fmul (successRate row) float_100) +:+ "%" +:+ tab +:+
  Sprintf_f 1 (requestRate row) +:+ "rps" +:+ tab +:+
  pretty (latencyP50 row) +:+ "ms" +:+ tab +:+
  pretty (latencyP95 row) +:+ "ms" +:+ tab +:+
  pretty (latencyP99 row) +:+ "ms" +:+ tab +:+
  Sprintf_f 0 (fmul (tlsPercent row) float_100) +:+ "%" +:+ tab +:+ nl.

Definition placeholderLine (route : string) : string :=
  route +:+ tab +:+ "-" +:+ tab +:+ "-" +:+ tab +:+ "-" +:+ tab +:+
  "-" +:+ tab +:+ "-" +:+ tab +:+ "-" +:+ tab +:+ "-" +:+ tab +:+ nl.

(** The line that the loop of [printRouteTable] writes for [route]. *)
Definition lineOf (stats : table) (routeWidth : Z) (route : string) : string :=
  match stats !! route with
  | Some row => tableLine routeWidth route row
  | None => placeholderLine route
  end.

(** An event of the request builder: a call of one of its two
    collaborators. *)
Definition builder_event (e : event TopRoutesRequest) : Prop :=
  match e with
  | EvBuildResource _ _ | EvBuildTopRoutesRequest _ => True
  | _ => False
  end.

(** [options] with another [--to-service-namespace]. *)
Definition with_toServiceNamespace (ns : string) (options : routesOptions)
    : routesOptions :=
  {| optionsBase := optionsBase options;
     toService := toService options;
     toServiceNamespace := ns;
     toAll := toAll options;
     toExternal := toExternal options |}.

(** The prefix of the error of [RunE] for a request that cannot be built. *)
Definition buildErrorPrefix : string :=
  "error creating metrics request while making routes request: ".

Ltac run_eff :=
  unfold mbind, M_bind, bind, mret, M_ret, ret, emit; simpl.

(** ** Properties of the route ordering *)

#[local] Set Default Proof Using "Type".

Section ordering_lemmas.
Import Ordering.

(** The loop of [sortRoutes] from any state, in closed form. *)
Lemma foldl_step (keys : list string) (st : locals) :
  foldl step st keys =
    {| sortedRoutes := sortedRoutes st ++ labelled keys;
       maxLength := foldl (λ m k, Z.max m (len k)) (maxLength st) (labelled keys);
       hasDefaultRoute := hasDefaultRoute st || bool_decide ("" ∈ keys) |}.
Proof.
  revert st. induction keys as [|k keys IH]; intros st; simpl.
  - destruct st; simpl. rewrite app_nil_r, orb_false_r. done.
  - rewrite IH. unfold step, labelled. rewrite filter_cons.
    destruct (decide (k = "")) as [->|Hk]; simpl.
    + by rewrite orb_true_r.
    + rewrite (decide_True (P := k ≠ "")) by done. simpl. f_equal.
      * by rewrite <- app_assoc.
      * f_equal. destruct (decide (len k > maxLength st)); lia.
      * f_equal. apply bool_decide_ext. rewrite elem_of_cons.
        split; [by right|]. intros [?|?]; [congruence|done].
Qed.

Lemma foldl_max_foldr (l : list Z) (base : Z) :
  foldl (λ m k, Z.max m k) base l = Zmax_list base l.
Proof.
  unfold Zmax_list. revert base. induction l as [|x l IH]; intros base; simpl; [done|].
  rewrite IH. clear IH. induction l as [|y l IH]; simpl; lia.
Qed.

Lemma foldl_max_len (l : list string) (base : Z) :
  foldl (λ m k, Z.max m (len k)) base l = Zmax_list base (len <$> l).
Proof.
  rewrite <- foldl_max_foldr. revert base.
  induction l as [|x l IH]; intros base; simpl; [done|]. by rewrite IH.
Qed.

(** [sortRoutes] in closed form. *)
Lemma sortRoutes_range_eq (keys : list string) :
  sortRoutes_range keys =
    (sort_Strings (labelled keys) ++ (if bool_decide ("" ∈ keys) then [""] else []),
     Zmax_list (len defaultRoute) (len <$> labelled keys)).
Proof.
  unfold sortRoutes_range. rewrite foldl_step. simpl.
  rewrite foldl_max_len. f_equal.
  destruct (bool_decide ("" ∈ keys)); [done|]. by rewrite app_nil_r.
Qed.

Lemma Zmax_list_perm (base : Z) (l1 l2 : list Z) :
  l1 ≡ₚ l2 → Zmax_list base l1 = Zmax_list base l2.
Proof.
  unfold Zmax_list. induction 1; simpl; lia.
Qed.

Lemma sort_Strings_perm (l1 l2 : list string) :
  l1 ≡ₚ l2 → sort_Strings l1 = sort_Strings l2.
Proof.
  intros Hp. apply (Sorted_unique String.le).
  - apply Sorted_merge_sort; apply _.
  - apply Sorted_merge_sort; apply _.
  - unfold sort_Strings. by rewrite !merge_sort_Permutation.
Qed.

(** The order in which the [range] loop visits the keys does not show
    in the result. *)
Lemma sortRoutes_range_perm (keys1 keys2 : list string) :
  keys1 ≡ₚ keys2 → sortRoutes_range keys1 = sortRoutes_range keys2.
Proof.
  intros Hp. rewrite !sortRoutes_range_eq.
  assert (labelled keys1 ≡ₚ labelled keys2) as Hl by (unfold labelled; by rewrite Hp).
  f_equal.
  - f_equal; [by apply sort_Strings_perm|].
    erewrite bool_decide_ext; [done|]. by rewrite Hp.
  - apply Zmax_list_perm. by rewrite Hl.
Qed.
End ordering_lemmas.

Section ordering_theorems.
Import Ordering.

Lemma elem_of_range_keys {V} (m : gmap string V) (k : string) :
  k ∈ range_keys m ↔ is_Some (m !! k).
Proof.
  unfold range_keys. rewrite list_elem_of_fmap. split.
  - intros [[k' v] [-> Hin]]. apply elem_of_map_to_list in Hin. by exists v.
  - intros [v Hv]. exists (k, v). split; [done|]. by apply elem_of_map_to_list.
Qed.

Lemma NoDup_range_keys {V} (m : gmap string V) : NoDup (range_keys m).
Proof. apply NoDup_fst_map_to_list. Qed.

Lemma elem_of_labelled (keys : list string) (k : string) :
  k ∈ labelled keys ↔ k ≠ "" ∧ k ∈ keys.
Proof. unfold labelled. by rewrite list_elem_of_filter. Qed.

Lemma elem_of_sort_Strings (l : list string) (k : string) :
  k ∈ sort_Strings l ↔ k ∈ l.
Proof. unfold sort_Strings. by rewrite merge_sort_Permutation. Qed.

Lemma StronglySorted_sort_Strings (l : list string) :
  StronglySorted String.le (sort_Strings l).
Proof. apply StronglySorted_merge_sort; apply _. Qed.

Lemma StronglySorted_lookup {A} (R : relation A) (l : list A) (i j : nat) (x y : A) :
  StronglySorted R l → (i < j)%nat → l !! i = Some x → l !! j = Some y → R x y.
Proof.
  intros Hs. revert i j. induction Hs as [|z l Hs IH Hall]; intros i j Hij Hi Hj.
  - by rewrite lookup_nil in Hi.
  - destruct j as [|j]; [lia|]. destruct i as [|i]; simpl in *.
    + injection Hi as ->. rewrite Forall_forall in Hall.
      apply Hall. by eapply list_elem_of_lookup_2.
    + eapply (IH i j); [lia|done..].
Qed.

(** A strict byte-wise inequality excludes the converse order. *)
Lemma ltb_not_le (a b : string) : String.ltb a b = true → ¬ String.le b a.
Proof.
  unfold String.le, String.ltb, String.leb. rewrite (String.compare_antisym b a).
  destruct (String.compare a b); simpl; intros H; [discriminate| |discriminate].
  intros [].
Qed.

Lemma ltb_neq (a b : string) : String.ltb a b = true → a ≠ b.
Proof.
  intros H ->. apply ltb_not_le in H. apply H. reflexivity.
Qed.

Lemma sorted_precedes (l : list string) (a b : string) :
  StronglySorted String.le l → a ∈ l → b ∈ l → String.ltb a b = true →
  precedes a b l.
Proof.
  intros Hs [i Hi]%list_elem_of_lookup [j Hj]%list_elem_of_lookup Hlt.
  exists i, j. split; [|done].
  destruct (decide (i < j)%nat) as [|Hge]; [done|]. exfalso.
  destruct (decide (i = j)) as [->|Hne].
  - apply (ltb_neq _ _ Hlt). congruence.
  - apply (ltb_not_le _ _ Hlt).
    eapply (StronglySorted_lookup String.le l j i); [done|lia|done..].
Qed.

Lemma precedes_app_l (a b : string) (l l' : list string) :
  precedes a b l → precedes a b (l ++ l').
Proof.
  intros (i & j & Hij & Hi & Hj). exists i, j.
  split; [done|]. split; by apply lookup_app_l_Some.
Qed.

Lemma Zmax_list_ge_base (base : Z) (l : list Z) : (base ≤ Zmax_list base l)%Z.
Proof. unfold Zmax_list. induction l; simpl; lia. Qed.

Lemma Zmax_list_ge_elem (base : Z) (l : list Z) (x : Z) :
  x ∈ l → (x ≤ Zmax_list base l)%Z.
Proof.
  unfold Zmax_list. induction 1; simpl; lia.
Qed.

Lemma Zmax_list_attained (base : Z) (l : list Z) :
  Zmax_list base l = base ∨ Zmax_list base l ∈ l.
Proof.
  unfold Zmax_list. induction l as [|x l IH]; simpl; [by left|].
  destruct (Z.max_spec x (foldr Z.max base l)) as [[_ ->]|[_ ->]].
  - destruct IH as [IH|IH]; [by left|]. right. by right.
  - right. by left.
Qed.

Lemma labelled_delete_empty {V} (m : gmap string V) :
  labelled (range_keys (delete "" m)) ≡ₚ labelled (range_keys m).
Proof.
  apply NoDup_Permutation.
  - apply NoDup_filter, NoDup_range_keys.
  - apply NoDup_filter, NoDup_range_keys.
  - intros k. rewrite !elem_of_labelled, !elem_of_range_keys.
    split; intros [Hk Hs]; (split; [done|]).
    + by rewrite lookup_delete_ne in Hs.
    + by rewrite lookup_delete_ne.
Qed.
End ordering_theorems.

Lemma sortRoutes_eq (stats : gmap string rowStats) :
  sortRoutes stats =
    (Ordering.sort_Strings (labelled (range_keys stats))
       ++ (if bool_decide ("" ∈ range_keys stats) then [""] else []),
     Zmax_list (len defaultRoute) (len <$> labelled (range_keys stats))).
Proof. apply sortRoutes_range_eq. Qed.

Lemma elem_of_sortRoutes (stats : gmap string rowStats) (k : string) :
  k ∈ (sortRoutes stats).1 ↔ is_Some (stats !! k).
Proof.
  rewrite sortRoutes_eq. simpl.
  rewrite elem_of_app, elem_of_sort_Strings, elem_of_labelled, !elem_of_range_keys.
  case_bool_decide as He; rewrite elem_of_range_keys in He.
  - rewrite list_elem_of_singleton. split.
    + intros [[_ ?]| ->]; done.
    + intros Hk. destruct (decide (k = "")); [by right|by left].
  - rewrite elem_of_nil. split; [by intros [[_ ?]|[]]|]. intros Hk. left. split; [|done].
    intros ->. done.
Qed.

(** C1. The sequence that [sortRoutes] returns holds exactly the keys of
    the table, each once; a non-empty label that is smaller than another
    in the byte-wise lexicographic order comes before it; and the empty
    label, when the table has it, occurs once, as the last element. *)
Theorem sortRoutes_sequence (stats : gmap string rowStats) :
  let seq := (sortRoutes stats).1 in
  (∀ k, k ∈ seq ↔ is_Some (stats !! k)) ∧
  NoDup seq ∧
  (∀ a b, a ≠ "" → b ≠ "" → a ∈ seq → b ∈ seq →
          String.ltb a b = true → precedes a b seq) ∧
  (is_Some (stats !! "") →
     last seq = Some "" ∧ ∃ front, seq = front ++ [""] ∧ "" ∉ front).
Proof.
  intros seq. subst seq. rewrite sortRoutes_eq. simpl.
  set (sorted := Ordering.sort_Strings (labelled (range_keys stats))).
  assert (Hsorted : ∀ k, k ∈ sorted ↔ k ≠ "" ∧ is_Some (stats !! k)).
  { intros k. unfold sorted.
    by rewrite elem_of_sort_Strings, elem_of_labelled, elem_of_range_keys. }
  assert (Hnodup : NoDup sorted).
  { unfold sorted, Ordering.sort_Strings. rewrite merge_sort_Permutation.
    apply NoDup_filter, NoDup_range_keys. }
  assert (Hnot : "" ∉ sorted) by (rewrite Hsorted; by intros [? _]).
  split; [|split; [|split]].
  - intros k. rewrite <- elem_of_sortRoutes. by rewrite sortRoutes_eq.
  - apply NoDup_app. split; [done|]. split.
    + intros k Hk. case_bool_decide; [|apply not_elem_of_nil].
      rewrite list_elem_of_singleton. intros ->. done.
    + case_bool_decide; [apply NoDup_singleton|apply NoDup_nil_2].
  - intros a b Ha Hb Hina Hinb Hlt. apply precedes_app_l.
    assert (∀ k, k ≠ "" →
              k ∈ sorted ++ (if bool_decide ("" ∈ range_keys stats) then [""] else []) →
              k ∈ sorted) as Hin.
    { intros k Hk [?|Hin]%elem_of_app; [done|].
      case_bool_decide; [|by apply elem_of_nil in Hin].
      by apply list_elem_of_singleton in Hin. }
    apply sorted_precedes; [apply StronglySorted_sort_Strings|by apply Hin..|done].
  - intros Hsome. rewrite bool_decide_eq_true_2 by (by apply elem_of_range_keys).
    split; [apply last_snoc|]. by exists sorted.
Qed.

(** C2. The width that [sortRoutes] returns is the largest of the length
    of ["[UNKNOWN]"] and the lengths of the non-empty keys: it is at least
    9, at least the length of every non-empty key, and it is the length of
    ["[UNKNOWN]"] or of some non-empty key. The empty label does not
    count with its own length: the width is the same without it, and it is
    9 for the table that holds only the empty label. *)
Theorem sortRoutes_width (stats : gmap string rowStats) :
  let width := (sortRoutes stats).2 in
  width = Zmax_list (len "[UNKNOWN]") (len <$> labelled (range_keys stats)) ∧
  len "[UNKNOWN]" = 9%Z ∧
  (len "[UNKNOWN]" ≤ width)%Z ∧
  (∀ k, is_Some (stats !! k) → k ≠ "" → (len k ≤ width)%Z) ∧
  (width = len "[UNKNOWN]" ∨
   ∃ k, is_Some (stats !! k) ∧ k ≠ "" ∧ width = len k) ∧
  (sortRoutes (delete "" stats)).2 = width ∧
  (∀ row, (sortRoutes {[ "" := row ]}).2 = len "[UNKNOWN]").
Proof.
  intros width. subst width. rewrite !sortRoutes_eq. simpl.
  fold defaultRoute.
  split; [done|]. split; [done|]. split; [apply Zmax_list_ge_base|].
  split; [|split; [|split]].
  - intros k Hk Hne. apply Zmax_list_ge_elem, list_elem_of_fmap.
    exists k. split; [done|]. apply elem_of_labelled. split; [done|].
    by apply elem_of_range_keys.
  - destruct (Zmax_list_attained (len defaultRoute)
                (len <$> labelled (range_keys stats))) as [H|H]; [by left|].
    right. apply list_elem_of_fmap in H as (k & Hk & Hin).
    apply elem_of_labelled in Hin as [Hne Hin]. exists k.
    split; [by apply elem_of_range_keys|]. done.
  - apply Zmax_list_perm. by rewrite labelled_delete_empty.
  - intros row. unfold range_keys. by rewrite map_to_list_singleton.
Qed.

(** ** Properties of the aggregation *)

Lemma aggregate_step_None (t : table) (r : Row) :
  pb.Stats r = None → aggregate_step t r = t.
Proof. unfold aggregate_step. by intros ->. Qed.

Lemma aggregate_step_Some (t : table) (r : Row) (stats : BasicStats) :
  pb.Stats r = Some stats →
  aggregate_step t r = <[pb.Route r := newRowStats r stats]> t.
Proof. unfold aggregate_step. by intros ->. Qed.

Lemma last_cons_filter {A} (x : A) (l : list A) :
  last (x :: l) = match last l with Some y => Some y | None => Some x end.
Proof.
  destruct l as [|y l]; [done|]. rewrite last_cons_cons.
  destruct (last (y :: l)) eqn:E; [done|].
  by apply last_None in E.
Qed.

(** The loop from any table: the last row for a key decides its entry,
    and a key with no such row keeps the entry it had. *)
Lemma foldl_aggregate_step_lookup (rows : list Row) (t : table) (k : string) :
  foldl aggregate_step t rows !! k =
    match last (rows_for k rows) with
    | Some r => rowStats_of_row r
    | None => t !! k
    end.
Proof.
  revert t. induction rows as [|r rows IH]; intros t; simpl; [done|].
  rewrite IH. unfold rows_for. rewrite filter_cons.
  case_decide as HP.
  - rewrite last_cons_filter.
    destruct (last (filter _ rows)); [done|].
    destruct HP as [<- [stats Hs]].
    rewrite (aggregate_step_Some _ _ _ Hs), lookup_insert_eq.
    unfold rowStats_of_row. by rewrite Hs.
  - destruct (last (filter _ rows)); [done|].
    destruct (pb.Stats r) as [stats|] eqn:Hs.
    + rewrite (aggregate_step_Some _ _ _ Hs), lookup_insert_ne; [done|].
      intros Heq. apply HP. split; [done|]. by eexists.
    + by rewrite (aggregate_step_None _ _ Hs).
Qed.

Lemma foldl_aggregate_step_filter (rows : list Row) (t : table) :
  foldl aggregate_step t (filter (λ r, is_Some (pb.Stats r)) rows) =
  foldl aggregate_step t rows.
Proof.
  revert t. induction rows as [|r rows IH]; intros t; simpl; [done|].
  rewrite filter_cons. case_decide as HP; simpl; [apply IH|].
  rewrite IH. f_equal. symmetry. apply aggregate_step_None.
  destruct (pb.Stats r); [|done]. exfalso. apply HP. by eexists.
Qed.

(** C3. Every key of the aggregated table is the route label of a row of
    the response that carries a stats payload; a row with a stats payload
    has an entry under its route label; a row without one adds nothing:
    the loop leaves the table as it is, so the table is that of the rows
    that carry a payload. *)
Theorem aggregate_keys_have_stats (rows : list Row) :
  (∀ k, is_Some (aggregate rows !! k) →
        ∃ r, r ∈ rows ∧ pb.Route r = k ∧ is_Some (pb.Stats r)) ∧
  (∀ r, r ∈ rows → is_Some (pb.Stats r) →
        is_Some (aggregate rows !! pb.Route r)) ∧
  (∀ t r, pb.Stats r = None → aggregate_step t r = t) ∧
  (∀ t r stats, pb.Stats r = Some stats →
        aggregate_step t r = <[pb.Route r := newRowStats r stats]> t) ∧
  aggregate (filter (λ r, is_Some (pb.Stats r)) rows) = aggregate rows.
Proof.
  split; [|split; [|split; [|split]]].
  - intros k. unfold aggregate. rewrite foldl_aggregate_step_lookup.
    destruct (last (rows_for k rows)) as [r|] eqn:E.
    + intros _. exists r. apply last_Some_elem_of in E.
      unfold rows_for in E. apply list_elem_of_filter in E.
      by destruct E as [[? ?] ?].
    + rewrite lookup_empty. by intros [? ?].
  - intros r Hin Hs. unfold aggregate. rewrite foldl_aggregate_step_lookup.
    destruct (last (rows_for (pb.Route r) rows)) as [r'|] eqn:E.
    + apply last_Some_elem_of in E. unfold rows_for in E.
      apply list_elem_of_filter in E as [[_ [s Hs']] _].
      unfold rowStats_of_row. rewrite Hs'. by eexists.
    + apply last_None in E. exfalso.
      assert (r ∈ rows_for (pb.Route r) rows) as Hr.
      { unfold rows_for. apply list_elem_of_filter. by split. }
      rewrite E in Hr. by apply elem_of_nil in Hr.
  - apply aggregate_step_None.
  - apply aggregate_step_Some.
  - apply foldl_aggregate_step_filter.
Qed.

Lemma rows_for_nil (k : string) (rows : list Row) :
  (∀ r, r ∈ rows → pb.Route r = k → pb.Stats r = None) → rows_for k rows = [].
Proof.
  unfold rows_for. induction rows as [|r rows IH]; intros Hnone; [done|].
  rewrite filter_cons, decide_False.
  - apply IH. intros r' Hin. apply Hnone. by right.
  - intros [Hk [stats Hs]]. rewrite (Hnone r) in Hs; [done|by left|done].
Qed.

(** C10. The entry of a route label in the aggregated table is the one
    of the last row of the response that has this label and carries a
    stats payload: its destination is that of this row, its rates are
    derived from the payload and the time window of this row, and its
    latencies are those of the payload. Rows before the last one leave no
    trace, a label has one entry, and there is no entry when no row with
    the label carries a payload. *)
Theorem aggregate_last_wins (rows : list Row) (k : string) :
  aggregate rows !! k = last (rows_for k rows) ≫= rowStats_of_row ∧
  (∀ before r after stats,
     rows = before ++ r :: after →
     pb.Route r = k → pb.Stats r = Some stats →
     (∀ r', r' ∈ after → pb.Route r' = k → pb.Stats r' = None) →
     aggregate rows !! k =
       Some {| dst := pb.Dst r;
               requestRate := GetRequestRate stats (pb.TimeWindow r);
               successRate := GetSuccessRate stats;
               tlsPercent := GetPercentTls stats;
               latencyP50 := LatencyMsP50 stats;
               latencyP95 := LatencyMsP95 stats;
               latencyP99 := LatencyMsP99 stats |}) ∧
  ((∀ r, r ∈ rows → pb.Route r = k → pb.Stats r = None) →
     aggregate rows !! k = None).
Proof.
  assert (aggregate rows !! k = last (rows_for k rows) ≫= rowStats_of_row) as Hlast.
  { unfold aggregate. rewrite foldl_aggregate_step_lookup.
    destruct (last (rows_for k rows)); [done|]. apply lookup_empty. }
  split; [done|]. rewrite Hlast. split.
  - intros before r after stats -> Hk Hs Hafter.
    assert (rows_for k (before ++ r :: after) = rows_for k before ++ [r]) as ->.
    { unfold rows_for. rewrite filter_app, filter_cons.
      rewrite decide_True by (split; [done|by eexists]).
      fold (rows_for k after). by rewrite (rows_for_nil k after Hafter). }
    rewrite last_snoc. simpl. unfold rowStats_of_row. by rewrite Hs.
  - intros Hnone. by rewrite (rows_for_nil k rows Hnone).
Qed.

(** ** Properties of the JSON renderer *)

Lemma mapE_Forall2 {A B} (f : A → error + B) (l : list A) (ys : list B) :
  mapE f l = inr ys ↔ Forall2 (λ x y, f x = inr y) l ys.
Proof.
  revert ys. induction l as [|x l IH]; intros ys; simpl.
  - split; [intros [= <-]; constructor|by intros ->%Forall2_nil_inv_l].
  - split.
    + destruct (f x) as [e|y] eqn:Hx; [done|].
      destruct (mapE f l) as [e|ys'] eqn:Hl; [done|].
      intros [= <-]. constructor; [done|]. by apply IH.
    + intros (y & ys' & Hx & Hl & ->)%Forall2_cons_inv_l.
      rewrite Hx. apply IH in Hl. by rewrite Hl.
Qed.

Lemma mapE_total {A B} (f : A → error + B) (l : list A) :
  (∀ x, x ∈ l → ∃ y, f x = inr y) → ∃ ys, mapE f l = inr ys.
Proof.
  induction l as [|x l IH]; intros H; simpl; [by eexists|].
  destruct (H x) as [y ->]; [by left|].
  destruct IH as [ys ->]; [|by eexists]. intros x' Hx'. apply H. by right.
Qed.

Lemma mapE_error {A B} (f : A → error + B) (l : list A) (x : A) (e : error) :
  x ∈ l → f x = inl e → ∃ x' e', x' ∈ l ∧ f x' = inl e' ∧ mapE f l = inl e'.
Proof.
  induction 1 as [x l|x x' l Hin IH]; intros Hx; simpl.
  - rewrite Hx. exists x, e. split; [by left|done].
  - destruct (f x') as [e0|y] eqn:Hx'.
    + exists x', e0. split; [by left|done].
    + destruct (IH Hx) as (x0 & e0 & Hin0 & Hf0 & ->).
      exists x0, e0. split; [by right|done].
Qed.

Lemma encodeValue_float (f : float64) :
  encodeValue (JFloat f) =
    if finite f then inr (formatFloat f) else inl (UnsupportedValueError f).
Proof. unfold encodeValue, finite. by destruct (IsNaN f || IsInf f). Qed.

(** The object of a key that the table holds, when its numbers are
    finite. *)
Lemma encodeObject_present (stats : table) (route : string) (row : rowStats) (d : nat) :
  stats !! route = Some row → finite_row row = true →
  encodeObject d (jsonEntry stats route) =
    inr (bracketed "{" "}" d
      [ field_text "route" (encodeString (display route));
        field_text "service" (encodeString (dst row));
        field_text "success" (formatFloat (successRate row));
        field_text "rps" (formatFloat (requestRate row));
        field_text "latency_ms_p50" (pretty (latencyP50 row));
        field_text "latency_ms_p95" (pretty (latencyP95 row));
        field_text "latency_ms_p99" (pretty (latencyP99 row));
        field_text "tls" (formatFloat (tlsPercent row)) ]).
Proof.
  intros Hrow Hfin. unfold finite_row in Hfin.
  apply andb_true_iff in Hfin as [[H1 H2]%andb_true_iff H3].
  apply negb_true_iff in H1, H2, H3.
  unfold encodeObject, jsonEntry, json_fields, encodeField. rewrite Hrow. simpl.
  by rewrite H1, H2, H3.
Qed.

(** The object of a key that the table does not hold. *)
Lemma encodeObject_absent (stats : table) (route : string) (d : nat) :
  stats !! route = None →
  encodeObject d (jsonEntry stats route) =
    inr (bracketed "{" "}" d
      [ field_text "route" (encodeString (display route));
        field_text "service" (encodeString "");
        field_text "success" "null";
        field_text "rps" "null";
        field_text "latency_ms_p50" "null";
        field_text "latency_ms_p95" "null";
        field_text "latency_ms_p99" "null";
        field_text "tls" "null" ]).
Proof.
  intros Hrow. unfold encodeObject, jsonEntry, json_fields. by rewrite Hrow.
Qed.

Lemma encodeObject_unsupported (stats : table) (route : string) (row : rowStats) (d : nat) :
  stats !! route = Some row → finite_row row = false →
  ∃ f, encodeObject d (jsonEntry stats route) = inl (UnsupportedValueError f).
Proof.
  intros Hrow Hfin. unfold finite_row, finite in Hfin.
  unfold encodeObject, jsonEntry, json_fields, encodeField. rewrite Hrow. simpl.
  destruct (IsNaN (successRate row) || IsInf (successRate row)); [by eexists|].
  destruct (IsNaN (requestRate row) || IsInf (requestRate row)); [by eexists|].
  destruct (IsNaN (tlsPercent row) || IsInf (tlsPercent row)); [by eexists|done].
Qed.

Lemma encodeObject_total (stats : table) (route : string) (d : nat) :
  finite_table stats → ∃ object, encodeObject d (jsonEntry stats route) = inr object.
Proof.
  intros Hfin. destruct (stats !! route) as [row|] eqn:Hrow.
  - eexists. apply (encodeObject_present _ _ row); [done|]. by apply (Hfin route).
  - eexists. by apply encodeObject_absent.
Qed.

(** The only error of the encoding of an object is a number that JSON
    cannot express. *)
Lemma encodeObject_error (e : jsonRouteStats) (d : nat) (err : error) :
  encodeObject d e = inl err → ∃ f, err = UnsupportedValueError f.
Proof.
  unfold encodeObject, json_fields, encodeField.
  destruct e as [r s [f1|] [f2|] [p50|] [p95|] [p99|] [f3|]]; simpl;
    repeat match goal with
           | |- context [IsNaN ?f || IsInf ?f] => destruct (IsNaN f || IsInf f)
           end;
    first [done | intros [= <-]; by eexists].
Qed.

Lemma printRouteJson_empty :
  printRouteJson ∅ = (Ret tt, [EvWrite ("[]" +:+ nl)]).
Proof. reflexivity. Qed.

Lemma printRouteJson_finite (stats : table) :
  finite_table stats →
  ∃ objects,
    Forall2 (λ route object, encodeObject 1 (jsonEntry stats route) = inr object)
            (sortRoutes stats).1 objects ∧
    printRouteJson stats = (Ret tt, [EvWrite (bracketed "[" "]" 0 objects +:+ nl)]).
Proof.
  intros Hfin. unfold printRouteJson, MarshalIndent, jsonEntries.
  destruct (mapE_total (encodeObject 1) (jsonEntry stats <$> (sortRoutes stats).1))
    as [objects Hobjects].
  { intros e (route & -> & _)%list_elem_of_fmap. by apply encodeObject_total. }
  exists objects. rewrite Hobjects. split; [|done].
  apply mapE_Forall2 in Hobjects. by apply Forall2_fmap_l in Hobjects.
Qed.

Lemma printRouteJson_unsupported (stats : table) :
  ¬ finite_table stats →
  ∃ f, printRouteJson stats = (Ret tt, [EvLogError (UnsupportedValueError f)]).
Proof.
  intros (k & row & Hrow & Hfin)%map_not_Forall; [|apply _].
  apply not_true_is_false in Hfin.
  destruct (encodeObject_unsupported stats k row 1 Hrow Hfin) as [f Hf].
  assert (jsonEntry stats k ∈ jsonEntry stats <$> (sortRoutes stats).1) as Hin.
  { apply list_elem_of_fmap. exists k. split; [done|].
    apply elem_of_sortRoutes. by eexists. }
  destruct (mapE_error _ _ _ _ Hin Hf) as (e' & err & _ & He' & Hmap).
  apply encodeObject_error in He' as [f' ->].
  exists f'. unfold printRouteJson, MarshalIndent, jsonEntries. by rewrite Hmap.
Qed.

(** C4 (amended). For the empty table [printRouteJson] writes the array
    text [[]] and a line break. For a table whose numbers are all finite
    it writes an array with one object per element of the sequence of
    [sortRoutes], in the order of the sequence. For a table that holds a
    NaN or an infinite number the marshalling fails: the error is logged
    and nothing is written. *)
Theorem printRouteJson_document (stats : table) :
  printRouteJson ∅ = (Ret tt, [EvWrite ("[]" +:+ nl)]) ∧
  (finite_table stats →
   ∃ objects,
     Forall2 (λ route object, encodeObject 1 (jsonEntry stats route) = inr object)
             (sortRoutes stats).1 objects ∧
     printRouteJson stats = (Ret tt, [EvWrite (bracketed "[" "]" 0 objects +:+ nl)])) ∧
  (¬ finite_table stats →
   ∃ f, printRouteJson stats = (Ret tt, [EvLogError (UnsupportedValueError f)])).
Proof.
  split; [apply printRouteJson_empty|].
  split; [apply printRouteJson_finite|apply printRouteJson_unsupported].
Qed.

Lemma lookup_field_elem_of (name : string) (fields : list (string * jvalue))
    (value : jvalue) :
  lookup_field name fields = Some value → (name, value) ∈ fields.
Proof.
  induction fields as [|[k v] fields IH]; simpl; [done|].
  destruct (String.eqb k name) eqn:E.
  - apply String.eqb_eq in E as ->. intros [= ->]. by left.
  - intros H. right. by apply IH.
Qed.



(** ** Properties of the request builder *)

Lemma qualifiedToService_eq (options : routesOptions) :
  toService options ≠ "" →
  qualifiedToService options =
    toService options +:+ "." +:+ toNamespace_of options +:+ ".svc.cluster.local".
Proof. intros H. unfold qualifiedToService, toNamespace_of. by rewrite decide_True. Qed.

Lemma qualifiedToService_empty (options : routesOptions) :
  qualifiedToService options = "" ↔ toService options = "".
Proof.
  unfold qualifiedToService. destruct (decide (toService options ≠ "")) as [Hne|He].
  - split; [|done]. destruct (toService options); [done|]. simpl. discriminate.
  - split; [|done]. intros _. by destruct (decide (toService options = "")).
Qed.

Lemma finishRequest_conflict (options : routesOptions)
    (base : util.StatsBaseRequestParams) (toService : string) :
  toService ≠ "" → toAll options = true →
  finishRequest options base toService = (Ret (inl errToAll), []).
Proof. intros H1 H2. unfold finishRequest. by rewrite decide_True. Qed.

Lemma finishRequest_ok (options : routesOptions)
    (base : util.StatsBaseRequestParams) (toService : string) :
  ¬ (toService ≠ "" ∧ toAll options = true) →
  let params := {| util.Base := base; util.ToService := toService;
                   util.ToAll := toAll options |} in
  finishRequest options base toService =
    (Ret (BuildTopRoutesRequest params), [EvBuildTopRoutesRequest params]).
Proof.
  intros H. unfold finishRequest. rewrite decide_False by done. run_eff.
  assert ((if decide (toService ≠ "") then toService else "") = toService) as ->.
  { case_decide as Hd; [done|]. by destruct (decide (toService = "")). }
  assert ((if toAll options then true else false) = toAll options) as ->
    by (by destruct (toAll options)).
  by destruct (BuildTopRoutesRequest _).
Qed.

(** The builder once the output format is accepted and the target is
    resolved. *)
Lemma buildTopRoutesRequest_resolved (resource : string) (options : routesOptions)
    (target : pb.Resource) :
  validateOutputFormat (optionsBase options) = None →
  BuildResource (namespace (optionsBase options)) resource = inr target →
  buildTopRoutesRequest resource options =
    let resolve := EvBuildResource (namespace (optionsBase options)) resource in
    if decide (toExternal options ≠ "") then
      if decide (toService options ≠ "") then
        (Ret (inl errToExternalToService), [resolve])
      else if toAll options then (Ret (inl errToAll), [resolve])
      else
        let params := requestParams_for options target (toExternal options) in
        (Ret (BuildTopRoutesRequest params), [resolve; EvBuildTopRoutesRequest params])
    else if decide (toService options ≠ "") then
      if toAll options then (Ret (inl errToAll), [resolve])
      else
        let params := requestParams_for options target (qualifiedToService options) in
        (Ret (BuildTopRoutesRequest params), [resolve; EvBuildTopRoutesRequest params])
    else
      let params := requestParams_for options target "" in
      (Ret (BuildTopRoutesRequest params), [resolve; EvBuildTopRoutesRequest params]).
Proof.
  intros Hv Hr. unfold buildTopRoutesRequest. rewrite Hv, Hr.
  pose proof (qualifiedToService_empty options) as Hq.
  destruct (decide (toExternal options ≠ "")) as [Hx|Hx];
    destruct (decide (toService options ≠ "")) as [Hs|Hs].
  - rewrite (decide_True (P := qualifiedToService options ≠ "")) by (by rewrite Hq).
    by run_eff.
  - rewrite (decide_False (P := qualifiedToService options ≠ ""))
      by (rewrite Hq; by intros ?).
    destruct (toAll options) eqn:Hall.
    + rewrite finishRequest_conflict by done. by run_eff.
    + rewrite finishRequest_ok by (rewrite Hall; intros [_ ?]; done).
      run_eff. unfold requestParams_for. by rewrite Hall.
  - destruct (toAll options) eqn:Hall.
    + rewrite finishRequest_conflict by (by rewrite ?Hq). by run_eff.
    + rewrite finishRequest_ok by (rewrite Hall; intros [_ ?]; done).
      run_eff. unfold requestParams_for. by rewrite Hall.
  - rewrite finishRequest_ok by (rewrite Hq; by intros [? _]).
    run_eff. unfold requestParams_for.
    assert (qualifiedToService options = "") as -> by (apply Hq; by destruct (decide (toService options = ""))).
    by destruct (toAll options).
Qed.

(** C6 (amended). Once the output format is accepted and the target is
    resolved, the builder fails with the error
    ["--to-external" and "--to-service" are mutually exclusive] whenever
    both [--to-service] and [--to-external] are set, and with the error
    ["--to-all" cannot be used with "--to-service" or "--to-external"]
    whenever [--to-all] is set together with exactly one of them; in both
    cases no request is constructed. When the builder succeeds, at most
    one of the three options is set and the request parameters carry at
    most one of a destination name and the to-all flag. *)
Theorem buildTopRoutesRequest_conflicts (resource : string) (options : routesOptions)
    (target : pb.Resource) :
  validateOutputFormat (optionsBase options) = None →
  BuildResource (namespace (optionsBase options)) resource = inr target →
  let resolve := EvBuildResource (namespace (optionsBase options)) resource in
  (toService options ≠ "" → toExternal options ≠ "" →
     qualifiedToService options ≠ "" ∧
     buildTopRoutesRequest resource options =
       (Ret (inl errToExternalToService), [resolve])) ∧
  (toAll options = true →
   (toService options ≠ "" ∧ toExternal options = "") ∨
   (toService options = "" ∧ toExternal options ≠ "") →
     buildTopRoutesRequest resource options = (Ret (inl errToAll), [resolve])) ∧
  (toAll options = true → toService options ≠ "" ∨ toExternal options ≠ "" →
     ∃ e, buildTopRoutesRequest resource options = (Ret (inl e), [resolve]) ∧
          ConflictingDestinationFilter e) ∧
  (∀ req, (buildTopRoutesRequest resource options).1 = Ret (inr req) →
     ¬ (toService options ≠ "" ∧ toExternal options ≠ "") ∧
     ¬ (toAll options = true ∧ toService options ≠ "") ∧
     ¬ (toAll options = true ∧ toExternal options ≠ "") ∧
     ∃ params,
       buildTopRoutesRequest resource options =
         (Ret (inr req), [resolve; EvBuildTopRoutesRequest params]) ∧
       BuildTopRoutesRequest params = inr req ∧
       ¬ (util.ToService params ≠ "" ∧ util.ToAll params = true)).
Proof.
  intros Hv Hr resolve. subst resolve.
  rewrite (buildTopRoutesRequest_resolved _ _ _ Hv Hr). simpl.
  split; [|split; [|split]].
  - intros Hs Hx. split; [by rewrite qualifiedToService_empty|].
    by rewrite !decide_True.
  - intros Hall [[Hs Hx]|[Hs Hx]]; rewrite Hall.
    + rewrite decide_False by (intros H; by apply H). by rewrite decide_True.
    + rewrite decide_True by done.
      by rewrite decide_False by (intros H; by apply H).
  - intros Hall Hor. rewrite Hall. unfold ConflictingDestinationFilter.
    destruct (decide (toExternal options ≠ "")); destruct (decide (toService options ≠ ""));
      try (eexists; split; [done|]; by eauto).
    exfalso. destruct Hor; done.
  - intros req.
    destruct (decide (toExternal options ≠ "")) as [Hx|Hx];
      destruct (decide (toService options ≠ "")) as [Hs|Hs];
      try done; destruct (toAll options) eqn:Hall; try done; simpl;
      intros [= Hreq];
      (split; [intros [? ?]; done|]); (split; [intros [? ?]; done|]);
      (split; [intros [? ?]; done|]);
      eexists; rewrite Hreq; (split; [done|]); (split; [done|]);
      simpl; rewrite ?Hall; intros [? ?]; done.
Qed.

(** C7. A non-empty [--to-service] option [x] is qualified to
    [x.<ns>.svc.cluster.local], where [<ns>] is the
    [--to-service-namespace] option when it is not empty and the
    namespace of the target (the [--namespace] option) otherwise. When no
    other destination option is set, the format is accepted and the
    target is resolved, the request is built from this name. *)
Theorem buildTopRoutesRequest_qualifies (resource : string) (options : routesOptions) :
  toService options ≠ "" →
  qualifiedToService options =
    toService options +:+ "." +:+ toNamespace_of options +:+ ".svc.cluster.local" ∧
  (toServiceNamespace options = "" →
     qualifiedToService options =
       toService options +:+ "." +:+ namespace (optionsBase options)
         +:+ ".svc.cluster.local") ∧
  (toServiceNamespace options ≠ "" →
     qualifiedToService options =
       toService options +:+ "." +:+ toServiceNamespace options
         +:+ ".svc.cluster.local") ∧
  (∀ target,
     validateOutputFormat (optionsBase options) = None →
     BuildResource (namespace (optionsBase options)) resource = inr target →
     toExternal options = "" → toAll options = false →
     let params := requestParams_for options target (qualifiedToService options) in
     util.ToService params =
       toService options +:+ "." +:+ toNamespace_of options +:+ ".svc.cluster.local" ∧
     util.Namespace (util.Base params) = namespace (optionsBase options) ∧
     buildTopRoutesRequest resource options =
       (Ret (BuildTopRoutesRequest params),
        [EvBuildResource (namespace (optionsBase options)) resource;
         EvBuildTopRoutesRequest params])).
Proof.
  intros Hs. pose proof (qualifiedToService_eq options Hs) as Hq.
  split; [done|]. split; [|split].
  - intros Hns. rewrite Hq. unfold toNamespace_of. by rewrite decide_True.
  - intros Hns. rewrite Hq. unfold toNamespace_of. by rewrite decide_False.
  - intros target Hv Hr Hx Hall params. subst params.
    split; [done|]. split; [done|].
    rewrite (buildTopRoutesRequest_resolved _ _ _ Hv Hr). simpl.
    rewrite decide_False by (intros H; by apply H).
    rewrite decide_True by done. by rewrite Hall.
Qed.

(** C8. For an output format other than table, json and the empty one the
    builder returns the error [InvalidOutputFormat] without any effect:
    the target is not resolved and no request is constructed. The command
    returns this error, wrapped, and issues no query. *)
Theorem buildTopRoutesRequest_invalid_format (resource : string) (options : routesOptions) :
  outputFormat (optionsBase options) ≠ "table" →
  outputFormat (optionsBase options) ≠ "json" →
  outputFormat (optionsBase options) ≠ "" →
  buildTopRoutesRequest resource options = (Ret (inl InvalidOutputFormat), []) ∧
  RunE resource options =
    (Ret (Some (fmt_Errorf
       "error creating metrics request while making routes request: "
       InvalidOutputFormat)), []).
Proof.
  intros H1 H2 H3.
  assert (validateOutputFormat (optionsBase options) = Some InvalidOutputFormat) as Hv.
  { unfold validateOutputFormat. rewrite decide_False; [done|].
    by intros [?|[?|?]]. }
  assert (buildTopRoutesRequest resource options = (Ret (inl InvalidOutputFormat), []))
    as Hb by (unfold buildTopRoutesRequest; by rewrite Hv).
  split; [done|]. unfold RunE. rewrite Hb. by run_eff.
Qed.

(** ** Properties of the table mode *)

(** The table renderer always writes its header line first. *)
Lemma printRouteTable_header (t : table) (options : routesOptions) :
  ∃ r header rest, printRouteTable t options = (r, EvWrite header :: rest).
Proof.
  unfold printRouteTable. destruct (sortRoutes t) as [sortedRoutes routeWidth].
  run_eff. destruct (for_each sortedRoutes _) as [r rest]. by eexists _, _, _.
Qed.

Lemma render_empty (options : routesOptions) :
  outputFormat (optionsBase options) = "table" ∨ outputFormat (optionsBase options) = "" →
  render ∅ options = (Exited 0, [EvStderr (noTrafficMessage +:+ nl)]).
Proof.
  intros Hf. unfold render. rewrite decide_True by done.
  rewrite decide_True by apply map_size_empty. by run_eff.
Qed.

(** C9 (amended). In table mode (format table or empty) with an empty
    aggregated table, the line
    [No traffic found.  Does the service have a service profile?  You can
    create one with the `linkerd profile` command.] is written to
    standard error and the process exits with code 0: nothing is written
    to the tab writer (the table renderer, which always writes a header,
    is not called) and nothing to standard output. *)
Theorem writeRouteStatsToBuffer_no_traffic (rows : list Row) (options : routesOptions) :
  outputFormat (optionsBase options) = "table" ∨ outputFormat (optionsBase options) = "" →
  aggregate rows = ∅ →
  writeRouteStatsToBuffer (pb.Response_Routes rows) options =
    (Exited 0, [EvStderr (noTrafficMessage +:+ nl)]) ∧
  noTrafficMessage =
    "No traffic found.  Does the service have a service profile?  You can create one with the `linkerd profile` command." ∧
  (∀ t, ∃ r header rest, printRouteTable t options = (r, EvWrite header :: rest)) ∧
  (∀ req, TopRoutes req = inr (pb.Response_Routes rows) →
     requestRouteStatsFromAPI req options =
       (Exited 0, [EvTopRoutes req; EvStderr (noTrafficMessage +:+ nl)])) ∧
  (∀ resource req t1 t2,
     buildTopRoutesRequest resource options = (Ret (inr req), t1) →
     validatedPublicAPIClient = (Ret tt, t2) →
     TopRoutes req = inr (pb.Response_Routes rows) →
     RunE resource options =
       (Exited 0, t1 ++ t2 ++ [EvTopRoutes req; EvStderr (noTrafficMessage +:+ nl)])).
Proof.
  intros Hf Hempty.
  assert (writeRouteStatsToBuffer (pb.Response_Routes rows) options =
            (Exited 0, [EvStderr (noTrafficMessage +:+ nl)])) as Hw.
  { unfold writeRouteStatsToBuffer, GetRoutes_Rows. run_eff.
    rewrite Hempty, render_empty by done. done. }
  assert (∀ req, TopRoutes req = inr (pb.Response_Routes rows) →
     requestRouteStatsFromAPI req options =
       (Exited 0, [EvTopRoutes req; EvStderr (noTrafficMessage +:+ nl)])) as Hq.
  { intros req Hreq. unfold requestRouteStatsFromAPI, renderRouteStats.
    rewrite Hreq, Hw. by run_eff. }
  split; [done|]. split; [done|]. split; [intros t; apply printRouteTable_header|].
  split; [done|].
  intros resource req t1 t2 Hb Hc Hreq. unfold RunE.
  rewrite Hb. unfold mbind at 1, M_bind, bind. rewrite Hc.
  unfold mbind at 1, M_bind, bind. rewrite (Hq req Hreq). done.
Qed.

(** ** Further properties of the route ordering *)

Lemma NoDup_sortRoutes (stats : gmap string rowStats) : NoDup (sortRoutes stats).1.
Proof.
  rewrite sortRoutes_eq. simpl. apply NoDup_app. split; [|split].
  - unfold Ordering.sort_Strings. rewrite merge_sort_Permutation.
    apply NoDup_filter, NoDup_range_keys.
  - intros k Hk. apply elem_of_sort_Strings, elem_of_labelled in Hk as [Hk _].
    case_bool_decide; [|apply not_elem_of_nil].
    rewrite list_elem_of_singleton. done.
  - case_bool_decide; [apply NoDup_singleton|apply NoDup_nil_2].
Qed.

Lemma sortRoutes_Permutation (stats : gmap string rowStats) :
  (sortRoutes stats).1 ≡ₚ range_keys stats.
Proof.
  apply NoDup_Permutation; [apply NoDup_sortRoutes|apply NoDup_range_keys|].
  intros k. by rewrite elem_of_sortRoutes, elem_of_range_keys.
Qed.

Lemma Zmax_list_le (base bound : Z) (l : list Z) :
  (base ≤ bound)%Z → (∀ x, x ∈ l → (x ≤ bound)%Z) → (Zmax_list base l ≤ bound)%Z.
Proof.
  intros Hb. unfold Zmax_list. induction l as [|x l IH]; intros Hl; simpl; [done|].
  apply Z.max_lub; [apply Hl; by left|]. apply IH. intros y Hy. apply Hl. by right.
Qed.

(** X1. Go leaves the order in which a [range] loop visits the keys of a
    map open. Whatever order the loop of [sortRoutes] visits the keys of
    the table in, it returns the same sequence and the same width. *)
Theorem sortRoutes_visit_order (stats : gmap string rowStats) (keys : list string) :
  keys ≡ₚ range_keys stats →
  Ordering.sortRoutes_range keys = sortRoutes stats.
Proof. intros Hp. by apply sortRoutes_range_perm. Qed.

(** X2. The sequence of [sortRoutes] is a rearrangement of the keys of
    the table: it has as many elements as the table has entries. *)
Theorem sortRoutes_length (stats : gmap string rowStats) :
  (sortRoutes stats).1 ≡ₚ range_keys stats ∧
  length (sortRoutes stats).1 = size stats.
Proof.
  split; [apply sortRoutes_Permutation|].
  rewrite sortRoutes_Permutation. unfold range_keys.
  by rewrite length_fmap, length_map_to_list.
Qed.

(** X3. The sequence of [sortRoutes] is the only one of its kind: a list
    without duplicates of the non-empty keys of the table in increasing
    byte-wise order, followed by the empty label when the table has it,
    is the sequence that [sortRoutes] returns. *)
Theorem sortRoutes_unique (stats : gmap string rowStats) (front : list string) :
  Sorted String.le front →
  NoDup front →
  (∀ k, k ∈ front ↔ k ≠ "" ∧ is_Some (stats !! k)) →
  (sortRoutes stats).1 =
    front ++ (if decide (is_Some (stats !! "")) then [""] else []).
Proof.
  intros Hsorted Hnodup Hin. rewrite sortRoutes_eq. simpl. f_equal.
  - apply (Sorted_unique String.le); [|done|].
    + apply Sorted_merge_sort; apply _.
    + unfold Ordering.sort_Strings. rewrite merge_sort_Permutation.
      apply NoDup_Permutation; [apply NoDup_filter, NoDup_range_keys|done|].
      intros k. by rewrite Hin, elem_of_labelled, elem_of_range_keys.
  - case_bool_decide as He; rewrite elem_of_range_keys in He.
    + by rewrite decide_True.
    + by rewrite decide_False.
Qed.

(** X4. A table with more keys never gets a narrower route column: the
    width of [sortRoutes] grows with the table. *)
Theorem sortRoutes_width_mono (stats stats' : gmap string rowStats) :
  stats ⊆ stats' →
  ((sortRoutes stats).2 ≤ (sortRoutes stats').2)%Z.
Proof.
  intros Hsub. rewrite !sortRoutes_eq. simpl.
  apply Zmax_list_le; [apply Zmax_list_ge_base|].
  intros x (k & -> & Hk)%list_elem_of_fmap.
  apply elem_of_labelled in Hk as [Hne Hk]. apply elem_of_range_keys in Hk.
  apply Zmax_list_ge_elem, list_elem_of_fmap. exists k. split; [done|].
  apply elem_of_labelled. split; [done|]. apply elem_of_range_keys.
  by eapply lookup_weaken_is_Some.
Qed.

(** ** Further properties of the aggregation *)

Lemma rows_for_has_stats (k : string) (rows : list Row) (r : Row) :
  r ∈ rows_for k rows → is_Some (rowStats_of_row r).
Proof.
  unfold rows_for. intros [[_ [s Hs]] _]%list_elem_of_filter.
  unfold rowStats_of_row. rewrite Hs. by eexists.
Qed.

Lemma aggregate_lookup (rows : list Row) (k : string) :
  aggregate rows !! k =
    match last (rows_for k rows) with
    | Some r => rowStats_of_row r
    | None => None
    end.
Proof.
  unfold aggregate. rewrite foldl_aggregate_step_lookup.
  destruct (last (rows_for k rows)); [done|]. apply lookup_empty.
Qed.

Lemma aggregate_lookup_row (rows : list Row) (r : Row) :
  r ∈ rows → is_Some (pb.Stats r) → is_Some (aggregate rows !! pb.Route r).
Proof.
  intros Hin Hs. rewrite aggregate_lookup.
  destruct (last (rows_for (pb.Route r) rows)) as [r'|] eqn:E.
  - apply last_Some_elem_of in E. by eapply rows_for_has_stats.
  - apply last_None in E. exfalso.
    assert (r ∈ rows_for (pb.Route r) rows) as Hr.
    { unfold rows_for. apply list_elem_of_filter. by split. }
    rewrite E in Hr. by apply elem_of_nil in Hr.
Qed.

Lemma foldl_aggregate_step_size (rows : list Row) (t : table) :
  (size (foldl aggregate_step t rows) ≤
     size t + length (filter (λ r, is_Some (pb.Stats r)) rows))%nat.
Proof.
  revert t. induction rows as [|r rows IH]; intros t; simpl; [lia|].
  etrans; [apply IH|]. rewrite filter_cons. unfold aggregate_step.
  destruct (pb.Stats r) as [s|] eqn:Hs.
  - rewrite decide_True by (by eexists). simpl.
    rewrite map_size_insert. destruct (t !! pb.Route r); unfold id; lia.
  - rewrite decide_False by (by intros [? ?]). lia.
Qed.

(** X5. Aggregating a response in two parts: the table of [rows1 ++ rows2]
    is the table of [rows2] completed by the entries of the table of
    [rows1] for the labels that [rows2] does not give. In particular a
    response that repeats its rows gives the same table. *)
Theorem aggregate_app (rows1 rows2 : list Row) :
  aggregate (rows1 ++ rows2) = aggregate rows2 ∪ aggregate rows1 ∧
  aggregate (rows1 ++ rows1) = aggregate rows1.
Proof.
  assert (∀ l1 l2, aggregate (l1 ++ l2) = aggregate l2 ∪ aggregate l1) as Happ.
  { intros l1 l2. apply map_eq. intros k.
    rewrite lookup_union, !aggregate_lookup. unfold rows_for at 1.
    rewrite filter_app, last_app. fold (rows_for k l1). fold (rows_for k l2).
    destruct (last (rows_for k l2)) as [r|] eqn:E.
    - apply last_Some_elem_of, rows_for_has_stats in E as [x ->].
      by destruct (match last (rows_for k l1) with Some r0 => _ | None => _ end).
    - by destruct (match last (rows_for k l1) with Some r0 => _ | None => _ end). }
  split; [apply Happ|]. rewrite Happ. apply (idemp_L (∪)).
Qed.

(** X6. The aggregated table is empty exactly when no row of the response
    carries a stats payload. *)
Theorem aggregate_empty_iff (rows : list Row) :
  aggregate rows = ∅ ↔ Forall (λ r, pb.Stats r = None) rows.
Proof.
  split.
  - intros Hempty. apply Forall_forall. intros r Hin.
    destruct (pb.Stats r) as [s|] eqn:Hs; [|done]. exfalso.
    destruct (aggregate_lookup_row rows r Hin) as [row Hrow]; [by rewrite Hs|].
    by rewrite Hempty, lookup_empty in Hrow.
  - intros Hall. unfold aggregate. induction Hall as [|r rows Hr _ IH]; [done|].
    simpl. by rewrite (aggregate_step_None _ _ Hr).
Qed.

(** X7. The aggregated table has at most one entry per row that carries
    a stats payload, hence at most one per row of the response. *)
Theorem aggregate_size (rows : list Row) :
  (size (aggregate rows) ≤ length (filter (λ r, is_Some (pb.Stats r)) rows))%nat ∧
  (size (aggregate rows) ≤ length rows)%nat.
Proof.
  assert (size (aggregate rows) ≤ length (filter (λ r, is_Some (pb.Stats r)) rows))%nat
    as Hle.
  { unfold aggregate. etrans; [apply foldl_aggregate_step_size|].
    by rewrite map_size_empty. }
  split; [done|]. etrans; [apply Hle|]. apply length_filter.
Qed.

(** ** Further properties of the renderers *)

Lemma for_each_emit {A} (l : list A) (f : A → eff unit)
    (g : A → event TopRoutesRequest) :
  (∀ x, f x = emit (g x)) → for_each l f = (Ret tt, g <$> l).
Proof.
  intros Hf. induction l as [|x l IH]; simpl; [done|].
  rewrite Hf, IH. by run_eff.
Qed.

(** [printRouteTable] in closed form: the header, then one line per
    element of the sequence. *)
Lemma printRouteTable_eq (stats : table) (options : routesOptions) :
  printRouteTable stats options =
    (Ret tt,
     EvWrite (tableHeader (sortRoutes stats).2)
       :: ((λ route, EvWrite (lineOf stats (sortRoutes stats).2 route))
             <$> (sortRoutes stats).1)).
Proof.
  unfold printRouteTable. destruct (sortRoutes stats) as [sortedRoutes routeWidth].
  simpl.
  rewrite (for_each_emit sortedRoutes _
             (λ route, EvWrite (lineOf stats routeWidth route))).
  - by run_eff.
  - intros route. unfold lineOf. by destruct (stats !! route).
Qed.

Lemma display_len_le_width (stats : table) (k : string) :
  is_Some (stats !! k) → (len (display k) ≤ (sortRoutes stats).2)%Z.
Proof.
  intros Hk. rewrite sortRoutes_eq. simpl. unfold display.
  destruct (decide (k = "")) as [->|Hne]; [apply Zmax_list_ge_base|].
  apply Zmax_list_ge_elem, list_elem_of_fmap. exists k. split; [done|].
  apply elem_of_labelled. split; [done|]. by apply elem_of_range_keys.
Qed.

Lemma Sprintf_left_pad (width : Z) (s : string) :
  (RuneCountInString s ≤ String.length s)%nat → (len s ≤ width)%Z →
  ∃ n, Sprintf_left width s = s +:+ spaces n ∧
       Z.of_nat (RuneCountInString s + n) = width.
Proof.
  intros Hr Hw. unfold Sprintf_left, len in *.
  exists (Z.to_nat (width - Z.of_nat (RuneCountInString s))). split; [done|]. lia.
Qed.

(** X8. For every table [printRouteTable] returns normally after writing
    the header and then one line per key, in the order of the sequence of
    [sortRoutes]; each of them is the line of the row of its key, never
    the placeholder line of a key without a row. It writes one line more
    than the table has entries. *)
Theorem printRouteTable_lines (stats : table) (options : routesOptions) :
  ∃ lines,
    printRouteTable stats options =
      (Ret tt, EvWrite (tableHeader (sortRoutes stats).2) :: lines) ∧
    Forall2 (λ route line,
               ∃ row, stats !! route = Some row ∧
                      line = EvWrite (tableLine (sortRoutes stats).2 route row))
            (sortRoutes stats).1 lines ∧
    length lines = size stats.
Proof.
  eexists. split; [apply printRouteTable_eq|]. split.
  - apply Forall2_fmap_r, Forall_Forall2_diag, Forall_forall.
    intros route [row Hrow]%elem_of_sortRoutes.
    exists row. split; [done|]. unfold lineOf. by rewrite Hrow.
  - rewrite length_fmap, sortRoutes_Permutation. unfold range_keys.
    by rewrite length_fmap, length_map_to_list.
Qed.

(** X9. The route column is as wide as [sortRoutes] says for every line:
    when a string has no more characters than bytes (as in Go), the
    header cell and the cell of every key of the table are the label
    followed by spaces, and label and spaces together count exactly the
    width; no label is longer than the column. *)
Theorem route_column_width (stats : table) :
  (∀ s, (RuneCountInString s ≤ String.length s)%nat) →
  let routeWidth := (sortRoutes stats).2 in
  (∃ n, Sprintf_left routeWidth "ROUTE" = "ROUTE" +:+ spaces n ∧
        Z.of_nat (RuneCountInString "ROUTE" + n) = routeWidth) ∧
  (∀ k, is_Some (stats !! k) →
     ∃ n, Sprintf_left routeWidth (display k) = display k +:+ spaces n ∧
          Z.of_nat (RuneCountInString (display k) + n) = routeWidth).
Proof.
  intros Hrunes routeWidth. subst routeWidth. split.
  - apply Sprintf_left_pad; [apply Hrunes|].
    rewrite sortRoutes_eq. simpl.
    etrans; [|apply Zmax_list_ge_base]. by vm_compute.
  - intros k Hk. apply Sprintf_left_pad; [apply Hrunes|].
    by apply display_len_le_width.
Qed.

(** X10. The document that [printRouteJson] marshals has no [null]: every
    entry is that of a key of the table, its service is the destination
    of the row and none of its fields is [null]. *)
Theorem printRouteJson_no_null (stats : table) (e : jsonRouteStats) :
  e ∈ jsonEntries stats (sortRoutes stats).1 →
  ∃ k row,
    stats !! k = Some row ∧ e = jsonEntry stats k ∧ Service e = dst row ∧
    ∀ name value, json_field name e = Some value → value ≠ JNull.
Proof.
  unfold jsonEntries. intros (k & -> & Hk)%list_elem_of_fmap.
  apply elem_of_sortRoutes in Hk as [row Hrow]. exists k, row.
  split; [done|]. split; [done|]. unfold jsonEntry. rewrite Hrow.
  split; [done|]. intros name value Hfield.
  apply lookup_field_elem_of in Hfield. simpl in Hfield.
  repeat (apply elem_of_cons in Hfield as [[= _ ->]|Hfield]; [done|]).
  by apply elem_of_nil in Hfield.
Qed.




(** ** Further properties of [writeRouteStatsToBuffer] *)

Lemma render_table_nonempty (t : table) (options : routesOptions) :
  outputFormat (optionsBase options) = "table" ∨ outputFormat (optionsBase options) = "" →
  t ≠ ∅ →
  render t options = printRouteTable t options.
Proof.
  intros Hf Ht. unfold render. rewrite decide_True by done.
  rewrite decide_False by (by apply map_size_non_empty_iff).
  rewrite printRouteTable_eq. by run_eff.
Qed.

Lemma writeRouteStatsToBuffer_Routes (rows : list Row) (options : routesOptions) :
  writeRouteStatsToBuffer (pb.Response_Routes rows) options =
  render (aggregate rows) options.
Proof.
  unfold writeRouteStatsToBuffer, GetRoutes_Rows. run_eff.
  by destruct (render (aggregate rows) options).
Qed.

Lemma writeRouteStatsToBuffer_no_table (resp : pb.TopRoutesResponse BasicStats)
    (options : routesOptions) :
  (∀ rows, resp ≠ pb.Response_Routes rows) →
  writeRouteStatsToBuffer resp options = (Panicked, []).
Proof.
  intros Hno. unfold writeRouteStatsToBuffer, GetRoutes_Rows.
  destruct resp as [e|rows|]; [done| |done]. by destruct (Hno rows).
Qed.

(** X12. In table mode (format table or empty), for every response:
    when the response holds a route table, [writeRouteStatsToBuffer]
    ends the process with code 0 exactly when no row carries a stats
    payload, and otherwise returns normally and does what
    [printRouteTable] does for the aggregated table; when the response
    holds no route table (an error or nothing), the nil dereference of
    [resp.GetRoutes().Rows] panics before any effect. *)
Theorem writeRouteStatsToBuffer_table_mode (resp : pb.TopRoutesResponse BasicStats)
    (options : routesOptions) :
  outputFormat (optionsBase options) = "table" ∨ outputFormat (optionsBase options) = "" →
  match resp with
  | pb.Response_Routes rows =>
      ((writeRouteStatsToBuffer resp options).1 = Exited 0 ↔
       Forall (λ r, pb.Stats r = None) rows) ∧
      (¬ Forall (λ r, pb.Stats r = None) rows →
       writeRouteStatsToBuffer resp options = printRouteTable (aggregate rows) options ∧
       (writeRouteStatsToBuffer resp options).1 = Ret tt)
  | _ => writeRouteStatsToBuffer resp options = (Panicked, [])
  end.
Proof.
  intros Hf. destruct resp as [e|rows|];
    [by apply writeRouteStatsToBuffer_no_table| |by apply writeRouteStatsToBuffer_no_table].
  rewrite writeRouteStatsToBuffer_Routes.
  destruct (decide (aggregate rows = ∅)) as [He|Hne].
  - rewrite He, render_empty by done. simpl.
    split; [by rewrite <- aggregate_empty_iff|].
    intros Hnot. exfalso. by apply Hnot, aggregate_empty_iff.
  - rewrite render_table_nonempty, printRouteTable_eq by done. simpl.
    split; [|done]. split; [done|]. intros Hall. exfalso.
    by apply Hne, aggregate_empty_iff.
Qed.

(** X13. In json mode, for every response: when the response holds a
    route table, [writeRouteStatsToBuffer] never ends the process; it
    returns after exactly one effect, the write of the marshalled
    document and a line break to the tab writer or, when the marshalling
    fails, the logging of the error; rows without any stats payload give
    the empty array. When the response holds no route table, the nil
    dereference of [resp.GetRoutes().Rows] panics before any effect. *)
Theorem writeRouteStatsToBuffer_json_mode (resp : pb.TopRoutesResponse BasicStats)
    (options : routesOptions) :
  outputFormat (optionsBase options) = "json" →
  match resp with
  | pb.Response_Routes rows =>
      (∃ ev, writeRouteStatsToBuffer resp options = (Ret tt, [ev]) ∧
             ((∃ b, ev = EvWrite (b +:+ nl) ∧
                    MarshalIndent (jsonEntries (aggregate rows)
                                     (sortRoutes (aggregate rows)).1) = inr b) ∨
              (∃ err, ev = EvLogError err ∧
                    MarshalIndent (jsonEntries (aggregate rows)
                                     (sortRoutes (aggregate rows)).1) = inl err))) ∧
      (Forall (λ r, pb.Stats r = None) rows →
       writeRouteStatsToBuffer resp options = (Ret tt, [EvWrite ("[]" +:+ nl)]))
  | _ => writeRouteStatsToBuffer resp options = (Panicked, [])
  end.
Proof.
  intros Hf. destruct resp as [e|rows|];
    [by apply writeRouteStatsToBuffer_no_table| |by apply writeRouteStatsToBuffer_no_table].
  rewrite writeRouteStatsToBuffer_Routes.
  assert (render (aggregate rows) options = printRouteJson (aggregate rows)) as ->.
  { unfold render. rewrite Hf.
    rewrite decide_False by (by intros [?|?]). by rewrite decide_True. }
  split.
  - unfold printRouteJson.
    destruct (MarshalIndent _) as [err|b] eqn:Hm; eexists; (split; [done|]).
    + right. by eexists.
    + left. by eexists.
  - intros Hall. apply aggregate_empty_iff in Hall. rewrite Hall.
    apply printRouteJson_empty.
Qed.

(** ** Further properties of the request builder and of the command *)

Lemma buildTopRoutesRequest_shape (resource : string) (options : routesOptions) :
  ∃ r t,
    buildTopRoutesRequest resource options = (Ret r, t) ∧
    Forall builder_event t ∧
    (∀ req, r = inr req →
       ∃ params,
         t = [EvBuildResource (namespace (optionsBase options)) resource;
              EvBuildTopRoutesRequest params] ∧
         BuildTopRoutesRequest params = inr req).
Proof.
  unfold buildTopRoutesRequest, finishRequest.
  destruct (validateOutputFormat _); [by eexists _, _|].
  destruct (BuildResource _ _); run_eff; [eexists _, _; by repeat constructor|].
  repeat case_decide; run_eff;
    eexists _, _; (split; [done|]); (split; [by repeat constructor|]);
    intros req [= Hreq]; by eexists.
Qed.

(** X14. The builder always returns: it never ends the process. Its only
    effects are the calls of its two collaborators, the resolution of
    the target first; and a request that it returns is the one that
    [util.BuildTopRoutesRequest] gave for the parameters of its one call. *)
Theorem buildTopRoutesRequest_effects (resource : string) (options : routesOptions) :
  ∃ r t,
    buildTopRoutesRequest resource options = (Ret r, t) ∧
    Forall builder_event t ∧
    (∀ req, r = inr req →
       ∃ params,
         t = [EvBuildResource (namespace (optionsBase options)) resource;
              EvBuildTopRoutesRequest params] ∧
         BuildTopRoutesRequest params = inr req).
Proof. apply buildTopRoutesRequest_shape. Qed.

Lemma RunE_after_build (resource : string) (options : routesOptions)
    (req : TopRoutesRequest) (t1 t2 : list (event TopRoutesRequest)) :
  buildTopRoutesRequest resource options = (Ret (inr req), t1) →
  validatedPublicAPIClient = (Ret tt, t2) →
  RunE resource options =
    match requestRouteStatsFromAPI req options with
    | (Ret (inl err), t3) => (Ret (Some err), t1 ++ t2 ++ t3)
    | (Ret (inr output), t3) =>
        (Ret (fmt_Print output), t1 ++ t2 ++ t3 ++ [EvStdout output])
    | (Exited code, t3) => (Exited code, t1 ++ t2 ++ t3)
    | (Panicked, t3) => (Panicked, t1 ++ t2 ++ t3)
    end.
Proof.
  intros Hb Hc. unfold RunE. rewrite Hb. unfold mbind at 1, M_bind, bind.
  rewrite Hc. unfold mbind at 1, M_bind, bind.
  destruct (requestRouteStatsFromAPI req options) as [[[err|output]|code|] t3];
    run_eff; by rewrite ?app_nil_r.
Qed.

(** X15. Whatever makes the builder fail, [RunE] returns the error of
    the builder behind the prefix [error creating metrics request while
    making routes request: ]; the API client is not set up, no query is
    issued and nothing is printed. *)
Theorem RunE_build_error (resource : string) (options : routesOptions)
    (err : error) (t : list (event TopRoutesRequest)) :
  buildTopRoutesRequest resource options = (Ret (inl err), t) →
  RunE resource options = (Ret (Some (fmt_Errorf buildErrorPrefix err)), t) ∧
  Forall builder_event t.
Proof.
  intros Hb. split.
  - unfold RunE. rewrite Hb. run_eff. by rewrite app_nil_r.
  - destruct (buildTopRoutesRequest_shape resource options)
      as (r & t' & Ht & Hev & _).
    rewrite Hb in Ht. by injection Ht as _ <-.
Qed.

(** X16. When the query fails, [RunE] returns the error of
    [requestRouteStatsFromAPI] as it is: the transport error behind the
    prefix [TopRoutes API error: ], or the error of the response behind
    [TopRoutes API response error: ]. The query is the last effect:
    nothing is rendered or printed. *)
Theorem RunE_api_error (resource : string) (options : routesOptions)
    (req : TopRoutesRequest) (t1 t2 : list (event TopRoutesRequest)) :
  buildTopRoutesRequest resource options = (Ret (inr req), t1) →
  validatedPublicAPIClient = (Ret tt, t2) →
  (∀ err, TopRoutes req = inl err →
     RunE resource options =
       (Ret (Some (fmt_Errorf "TopRoutes API error: " err)),
        t1 ++ t2 ++ [EvTopRoutes req])) ∧
  (∀ e, TopRoutes req = inr (pb.Response_Error e) →
     RunE resource options =
       (Ret (Some (errors_New ("TopRoutes API response error: " +:+ e))),
        t1 ++ t2 ++ [EvTopRoutes req])).
Proof.
  intros Hb Hc. rewrite (RunE_after_build _ _ _ _ _ Hb Hc).
  unfold requestRouteStatsFromAPI.
  split; [intros err Herr|intros e Herr]; rewrite Herr; by run_eff.
Qed.

(** X17. In json mode, once the query returned a route table, [RunE]
    prints once to standard output what [renderStats] makes of the
    flushed buffer and returns what [fmt.Print] returns for it: [nil]
    when the write succeeds, its error otherwise. This holds also when
    the marshalling fails: then the error of the marshaller is only
    logged, the buffer is empty, and the result is still that of
    [fmt.Print]. *)
Theorem RunE_json (resource : string) (options : routesOptions)
    (req : TopRoutesRequest) (t1 t2 : list (event TopRoutesRequest))
    (rows : list Row) :
  buildTopRoutesRequest resource options = (Ret (inr req), t1) →
  validatedPublicAPIClient = (Ret tt, t2) →
  TopRoutes req = inr (pb.Response_Routes rows) →
  outputFormat (optionsBase options) = "json" →
  ∃ ev,
    RunE resource options =
      (Ret (fmt_Print
              (renderStats (tabwriter_Flush (written [ev])) (optionsBase options))),
       t1 ++ t2 ++
       [EvTopRoutes req; ev;
        EvStdout (renderStats (tabwriter_Flush (written [ev])) (optionsBase options))]) ∧
    (finite_table (aggregate rows) →
       ∃ objects, ev = EvWrite (bracketed "[" "]" 0 objects +:+ nl) ∧
                  length objects = size (aggregate rows)) ∧
    (¬ finite_table (aggregate rows) →
       (∃ f, ev = EvLogError (UnsupportedValueError f)) ∧ written [ev] = "").
Proof.
  intros Hb Hc Hq Hf. rewrite (RunE_after_build _ _ _ _ _ Hb Hc).
  unfold requestRouteStatsFromAPI, renderRouteStats. rewrite Hq.
  rewrite writeRouteStatsToBuffer_Routes.
  assert (render (aggregate rows) options = printRouteJson (aggregate rows)) as ->.
  { unfold render. rewrite Hf.
    rewrite decide_False by (by intros [?|?]). by rewrite decide_True. }
  destruct (decide (finite_table (aggregate rows))) as [Hfin|Hfin].
  - destruct (printRouteJson_finite _ Hfin) as (objects & Hobjects & ->).
    exists (EvWrite (bracketed "[" "]" 0 objects +:+ nl)).
    split; [by run_eff|]. split; [|done]. intros _.
    exists objects. split; [done|].
    apply Forall2_length in Hobjects. rewrite <- Hobjects.
    rewrite sortRoutes_Permutation. unfold range_keys.
    by rewrite length_fmap, length_map_to_list.
  - destruct (printRouteJson_unsupported _ Hfin) as [f ->].
    exists (EvLogError (UnsupportedValueError f)).
    split; [by run_eff|]. split; [done|]. intros _.
    split; [by eexists|done].
Qed.

(** X18. Without a [--to-service] option the [--to-service-namespace]
    option has no effect at all: the builder does the same, whatever its
    value. *)
Theorem toServiceNamespace_ignored (resource ns : string) (options : routesOptions) :
  toService options = "" →
  buildTopRoutesRequest resource (with_toServiceNamespace ns options) =
  buildTopRoutesRequest resource options.
Proof.
  intros Hs. unfold buildTopRoutesRequest, finishRequest, qualifiedToService.
  simpl. rewrite Hs. by rewrite !decide_False by (by intros ?).
Qed.

(** X19. A [--to-external] name that stands alone is handed on as it is:
    it is not qualified with a namespace or a cluster suffix, and the
    [--to-service-namespace] option does not touch it. *)
Theorem buildTopRoutesRequest_external (resource : string) (options : routesOptions)
    (target : pb.Resource) :
  validateOutputFormat (optionsBase options) = None →
  BuildResource (namespace (optionsBase options)) resource = inr target →
  toService options = "" → toExternal options ≠ "" → toAll options = false →
  let params := requestParams_for options target (toExternal options) in
  util.ToService params = toExternal options ∧
  util.ToAll params = false ∧
  buildTopRoutesRequest resource options =
    (Ret (BuildTopRoutesRequest params),
     [EvBuildResource (namespace (optionsBase options)) resource;
      EvBuildTopRoutesRequest params]).
Proof.
  intros Hv Hr Hs Hx Hall params. subst params.
  split; [done|]. split; [done|].
  rewrite (buildTopRoutesRequest_resolved _ _ _ Hv Hr). simpl.
  rewrite decide_True by done.
  rewrite decide_False by (by intros ?). by rewrite Hall.
Qed.

(** X20. With the options of [newRoutesOptions] (no destination option
    set) the builder cannot fail with a conflict: once the default
    format is accepted and the target resolved, it asks for a request
    without destination name and without the to-all flag. *)
Theorem newRoutesOptions_request (resource : string) (target : pb.Resource) :
  validateOutputFormat newStatOptionsBase = None →
  BuildResource (namespace newStatOptionsBase) resource = inr target →
  let params := requestParams_for newRoutesOptions target "" in
  util.ToService params = "" ∧ util.ToAll params = false ∧
  buildTopRoutesRequest resource newRoutesOptions =
    (Ret (BuildTopRoutesRequest params),
     [EvBuildResource (namespace newStatOptionsBase) resource;
      EvBuildTopRoutesRequest params]).
Proof.
  intros Hv Hr params. subst params. split; [done|]. split; [done|].
  by rewrite (buildTopRoutesRequest_resolved resource newRoutesOptions target Hv Hr).
Qed.

End Routes.

(** ** A concrete instance and the theorems at concrete inputs *)


(** The operations at the instance [Example]. *)
Abbreviation Example_printRouteJson :=
  (printRouteJson Example.Request Example.quote Example.formatFloat).
Abbreviation Example_encodeObject :=
  (encodeObject Example.quote Example.formatFloat).
Abbreviation Example_buildTopRoutesRequest :=
  (buildTopRoutesRequest Example.Request Example.BuildResource
     Example.BuildTopRoutesRequest).
Abbreviation Example_aggregate :=
  (aggregate Example.BasicStats latencyP50 latencyP95 latencyP99
     (λ s _, requestRate s) successRate tlsPercent).
Abbreviation Example_writeRouteStatsToBuffer :=
  (writeRouteStatsToBuffer Example.BasicStats Example.Request
     latencyP50 latencyP95 latencyP99 (λ s _, requestRate s) successRate tlsPercent
     Example.quote Example.formatFloat Example.Sprintf_f String.length).
Abbreviation Example_RunE answer :=
  (RunE Example.BasicStats Example.Request
     latencyP50 latencyP95 latencyP99 (λ s _, requestRate s) successRate tlsPercent
     Example.BuildResource Example.BuildTopRoutesRequest Example.client
     (Example.TopRoutes answer) Example.quote Example.formatFloat Example.Sprintf_f
     String.length Example.flush Example.renderStats Example.Print).

(** The order of [sort.Strings] is that of the bytes: upper case comes
    before lower case, a prefix before its extensions, and bytes above
    127 after the ASCII characters. *)
Example byte_order :
  String.ltb "Z" "a" = true ∧ String.ltb "/api" "/api/vote" = true ∧
  String.ltb "z" (String "200" "") = true ∧ String.ltb "" "/" = true.
Proof. repeat split. Qed.

(** A response with a row without payload and two rows for one label. *)
Example aggregate_example :
  Example_aggregate
    [ {| pb.Route := "/a"; pb.TimeWindow := "1m"; pb.Stats := None; pb.Dst := "web" |};
      {| pb.Route := "/b"; pb.TimeWindow := "1m";
         pb.Stats := Some (Example.row "" S754_nan); pb.Dst := "old" |};
      {| pb.Route := "/b"; pb.TimeWindow := "1m";
         pb.Stats := Some (Example.row "" Example.one); pb.Dst := "new" |} ]
  = {[ "/b" := Example.row "new" Example.one ]}.
Proof. by vm_compute. Qed.

(** The objects of the specification's example table. *)
Example jsonEntries_example :
  Route <$> jsonEntries
    {[ "" := Example.row "a" Example.one; "/api/vote" := Example.row "b" Example.one ]}
    ["/api/vote"; ""]
  = ["/api/vote"; "[UNKNOWN]"].
Proof. by vm_compute. Qed.

(** The ordering of the specification's example table. *)
Example sortRoutes_example :
  sortRoutes {[ "" := Example.row "a" Example.one; "/api/vote" := Example.row "b" Example.one ]}
  = (["/api/vote"; ""], 9%Z).
Proof. vm_compute. reflexivity. Qed.

Lemma aggregate_last_wins_witness :
  Example_aggregate
    ([ {| pb.Route := "/b"; pb.TimeWindow := "1m";
          pb.Stats := Some (Example.row "" S754_nan); pb.Dst := "old" |} ] ++
     {| pb.Route := "/b"; pb.TimeWindow := "1m";
        pb.Stats := Some (Example.row "" Example.one); pb.Dst := "new" |} ::
     [ {| pb.Route := "/b"; pb.TimeWindow := "1m"; pb.Stats := None; pb.Dst := "none" |} ])
    !! "/b"
  = Some {| dst := "new"; requestRate := Example.one; successRate := Example.one;
            tlsPercent := Example.one; latencyP50 := 1; latencyP95 := 2;
            latencyP99 := 3 |}.
Proof.
  apply (proj1 (proj2 (aggregate_last_wins Example.BasicStats
           latencyP50 latencyP95 latencyP99 (λ s _, requestRate s) successRate tlsPercent
           _ "/b"))
         [ {| pb.Route := "/b"; pb.TimeWindow := "1m";
              pb.Stats := Some (Example.row "" S754_nan); pb.Dst := "old" |} ]
         {| pb.Route := "/b"; pb.TimeWindow := "1m";
            pb.Stats := Some (Example.row "" Example.one); pb.Dst := "new" |}
         [ {| pb.Route := "/b"; pb.TimeWindow := "1m"; pb.Stats := None; pb.Dst := "none" |} ]
         (Example.row "" Example.one) eq_refl eq_refl eq_refl).
  intros r' Hin _. apply list_elem_of_singleton in Hin. subst r'. reflexivity.
Defined.

(** *** JSON renderer *)

(** C4 as stated does not hold: for a table with one key whose request
    rate is NaN the sequence has one element, but no array is written;
    the marshalling error is logged. *)
Lemma printRouteJson_nan_counterexample :
  (sortRoutes {[ "/a" := Example.row "web" S754_nan ]}).1 = ["/a"] ∧
  Example_printRouteJson {[ "/a" := Example.row "web" S754_nan ]} =
    (Ret tt, [EvLogError (UnsupportedValueError S754_nan)]) ∧
  written (Example_printRouteJson {[ "/a" := Example.row "web" S754_nan ]}).2 = "" ∧
  ¬ emits_array_of_sequence Example.Request Example.quote Example.formatFloat
      {[ "/a" := Example.row "web" S754_nan ]}.
Proof.
  split; [by vm_compute|]. split; [by vm_compute|]. split; [by vm_compute|].
  intros (objects & _ & Hwritten).
  assert (written (Example_printRouteJson {[ "/a" := Example.row "web" S754_nan ]}).2 = "")
    as Hnone by (by vm_compute).
  rewrite Hnone in Hwritten. by destruct objects.
Qed.

Lemma printRouteJson_document_witness :
  finite_table {[ "/a" := Example.row "web" Example.one ]} ∧
  ∃ objects,
    Forall2 (λ route object,
               Example_encodeObject 1
                 (jsonEntry {[ "/a" := Example.row "web" Example.one ]} route) = inr object)
            (sortRoutes {[ "/a" := Example.row "web" Example.one ]}).1 objects ∧
    Example_printRouteJson {[ "/a" := Example.row "web" Example.one ]} =
      (Ret tt, [EvWrite (bracketed "[" "]" 0 objects +:+ nl)]).
Proof.
  assert (finite_table {[ "/a" := Example.row "web" Example.one ]}) as Hfin.
  { apply map_Forall_singleton. reflexivity. }
  split; [exact Hfin|].
  apply (printRouteJson_document Example.Request Example.quote Example.formatFloat
           {[ "/a" := Example.row "web" Example.one ]}).
  exact Hfin.
Defined.


(** *** Request builder *)

(** C6 as stated does not hold: with an output format that is not
    accepted the builder fails with [InvalidOutputFormat] although both
    destination options are set; and with an accepted format the message
    of the error names the options as flags, in quotes. *)
Lemma buildTopRoutesRequest_conflicts_counterexample :
  Example_buildTopRoutesRequest "deploy/web" (Example.options "yaml" "x" "" "y" false) =
    (Ret (inl InvalidOutputFormat), []) ∧
  ¬ conflict_reported Example.Request Example.BuildResource Example.BuildTopRoutesRequest
      "deploy/web" (Example.options "yaml" "x" "" "y" false) ∧
  Example_buildTopRoutesRequest "deploy/web" (Example.options "table" "x" "" "y" false) =
    (Ret (inl errToExternalToService), [EvBuildResource "test" "deploy/web"]) ∧
  errToExternalToService ≠ errors_New "to-external and to-service are mutually exclusive" ∧
  errToAll ≠ errors_New "to-all cannot be used with to-service or to-external".
Proof.
  split; [reflexivity|]. split.
  { intros Hconflict.
    destruct Hconflict as (e & He & [->| ->]); [discriminate..|done|done]. }
  split; [reflexivity|]. split; discriminate.
Qed.

Lemma buildTopRoutesRequest_conflicts_witness :
  validateOutputFormat (optionsBase (Example.options "table" "x" "" "y" false)) = None ∧
  Example.BuildResource "test" "deploy/web" =
    inr {| pb.Namespace := "test"; pb.Type_ := "deployment"; pb.Name := "deploy/web" |} ∧
  Example_buildTopRoutesRequest "deploy/web" (Example.options "table" "x" "" "y" false) =
    (Ret (inl errToExternalToService), [EvBuildResource "test" "deploy/web"]).
Proof.
  split; [reflexivity|]. split; [reflexivity|].
  destruct (buildTopRoutesRequest_conflicts Example.Request
              Example.BuildResource Example.BuildTopRoutesRequest
              "deploy/web" (Example.options "table" "x" "" "y" false)
              {| pb.Namespace := "test"; pb.Type_ := "deployment"; pb.Name := "deploy/web" |}
              eq_refl eq_refl) as (Hboth & _).
  apply Hboth; discriminate.
Defined.

Lemma buildTopRoutesRequest_qualifies_witness :
  toService (Example.options "table" "x" "" "" false) ≠ "" ∧
  qualifiedToService (Example.options "table" "x" "" "" false) = "x.test.svc.cluster.local".
Proof.
  assert (toService (Example.options "table" "x" "" "" false) ≠ "") as Hs by discriminate.
  split; [exact Hs|].
  destruct (buildTopRoutesRequest_qualifies Example.Request
              Example.BuildResource Example.BuildTopRoutesRequest
              "deploy/web" (Example.options "table" "x" "" "" false) Hs) as (_ & Hns & _).
  exact (Hns eq_refl).
Defined.

Lemma buildTopRoutesRequest_invalid_format_witness :
  outputFormat (optionsBase (Example.options "yaml" "" "" "" false)) ≠ "table" ∧
  outputFormat (optionsBase (Example.options "yaml" "" "" "" false)) ≠ "json" ∧
  outputFormat (optionsBase (Example.options "yaml" "" "" "" false)) ≠ "" ∧
  Example_RunE [] "deploy/web" (Example.options "yaml" "" "" "" false) =
    (Ret (Some (fmt_Errorf
       "error creating metrics request while making routes request: "
       InvalidOutputFormat)), []).
Proof.
  assert (outputFormat (optionsBase (Example.options "yaml" "" "" "" false)) ≠ "table")
    as H1 by discriminate.
  assert (outputFormat (optionsBase (Example.options "yaml" "" "" "" false)) ≠ "json")
    as H2 by discriminate.
  assert (outputFormat (optionsBase (Example.options "yaml" "" "" "" false)) ≠ "")
    as H3 by discriminate.
  split; [exact H1|]. split; [exact H2|]. split; [exact H3|].
  apply (buildTopRoutesRequest_invalid_format Example.BasicStats Example.Request
           latencyP50 latencyP95 latencyP99 (λ s _, requestRate s) successRate tlsPercent
           Example.BuildResource Example.BuildTopRoutesRequest Example.client
           (Example.TopRoutes []) Example.quote Example.formatFloat Example.Sprintf_f
           String.length Example.flush Example.renderStats Example.Print
           "deploy/web" (Example.options "yaml" "" "" "" false) H1 H2 H3).
Defined.

(** *** Table mode *)

(** C9 as stated does not hold: the line written to standard error is
    not the string that the claim quotes. *)
Lemma writeRouteStatsToBuffer_no_traffic_counterexample :
  Example_writeRouteStatsToBuffer (pb.Response_Routes [])
      (Example.options "table" "" "" "" false) =
    (Exited 0, [EvStderr (noTrafficMessage +:+ nl)]) ∧
  noTrafficMessage ≠ quotedNoTrafficMessage ∧
  noTrafficMessage +:+ nl ≠ quotedNoTrafficMessage ∧
  noTrafficMessage +:+ nl ≠ quotedNoTrafficMessage +:+ nl.
Proof. split; [reflexivity|]. split; [|split]; discriminate. Qed.

Lemma writeRouteStatsToBuffer_no_traffic_witness :
  (outputFormat (optionsBase (Example.options "table" "" "" "" false)) = "table" ∨
   outputFormat (optionsBase (Example.options "table" "" "" "" false)) = "") ∧
  Example_aggregate [] = ∅ ∧
  Example_writeRouteStatsToBuffer (pb.Response_Routes [])
      (Example.options "table" "" "" "" false) =
    (Exited 0, [EvStderr (noTrafficMessage +:+ nl)]).
Proof.
  split; [by left|]. split; [reflexivity|].
  apply (writeRouteStatsToBuffer_no_traffic Example.BasicStats Example.Request
           latencyP50 latencyP95 latencyP99 (λ s _, requestRate s) successRate tlsPercent
           Example.BuildResource Example.BuildTopRoutesRequest Example.client
           (Example.TopRoutes []) Example.quote Example.formatFloat Example.Sprintf_f
           String.length Example.flush Example.renderStats Example.Print
           [] (Example.options "table" "" "" "" false) (or_introl eq_refl) eq_refl).
Defined.

(** *** Further properties at concrete inputs *)

Lemma sortRoutes_visit_order_witness :
  [""; "/b"; "/a"] ≡ₚ
    range_keys ({[ "" := Example.row "a" Example.one; "/b" := Example.row "b" Example.one;
                   "/a" := Example.row "c" Example.one ]} : gmap string rowStats) ∧
  Ordering.sortRoutes_range [""; "/b"; "/a"] =
    sortRoutes {[ "" := Example.row "a" Example.one; "/b" := Example.row "b" Example.one;
                  "/a" := Example.row "c" Example.one ]}.
Proof.
  assert ([""; "/b"; "/a"] ≡ₚ
    range_keys ({[ "" := Example.row "a" Example.one; "/b" := Example.row "b" Example.one;
                   "/a" := Example.row "c" Example.one ]} : gmap string rowStats)) as Hp.
  { vm_compute. apply (reverse_Permutation ["/a"; "/b"; ""]). }
  split; [exact Hp|]. exact (sortRoutes_visit_order _ _ Hp).
Defined.

Lemma sortRoutes_unique_witness :
  Sorted String.le ["/a"; "/b"] ∧ NoDup ["/a"; "/b"] ∧
  (sortRoutes {[ "" := Example.row "a" Example.one; "/b" := Example.row "b" Example.one;
                 "/a" := Example.row "c" Example.one ]}).1 =
    ["/a"; "/b"] ++
    (if decide (is_Some
         (({[ "" := Example.row "a" Example.one; "/b" := Example.row "b" Example.one;
              "/a" := Example.row "c" Example.one ]} : gmap string rowStats) !! ""))
     then [""] else []).
Proof.
  assert (Sorted String.le ["/a"; "/b"]) as Hs.
  { repeat constructor. }
  assert (NoDup ["/a"; "/b"]) as Hn.
  { apply (bool_decide_unpack _). by vm_compute. }
  split; [exact Hs|]. split; [exact Hn|].
  apply (sortRoutes_unique
           {[ "" := Example.row "a" Example.one; "/b" := Example.row "b" Example.one;
              "/a" := Example.row "c" Example.one ]} ["/a"; "/b"] Hs Hn).
  intros k. split.
  - intros [->|[->|[]%elem_of_nil]%elem_of_cons]%elem_of_cons;
      (split; [discriminate|by eexists]).
  - intros [Hne Hk]. apply elem_of_range_keys in Hk. vm_compute in Hk.
    apply elem_of_cons in Hk as [->|Hk]; [by left|].
    apply elem_of_cons in Hk as [->|Hk]; [right; by left|].
    apply elem_of_cons in Hk as [->|Hk]; [done|]. by apply elem_of_nil in Hk.
Defined.

Lemma sortRoutes_width_mono_witness :
  ({[ "/a" := Example.row "a" Example.one ]} : gmap string rowStats) ⊆
    <[ "/a/much/longer/route" := Example.row "b" Example.one ]>
      {[ "/a" := Example.row "a" Example.one ]} ∧
  ((sortRoutes {[ "/a" := Example.row "a" Example.one ]}).2 ≤
   (sortRoutes (<[ "/a/much/longer/route" := Example.row "b" Example.one ]>
                  {[ "/a" := Example.row "a" Example.one ]})).2)%Z.
Proof.
  assert (({[ "/a" := Example.row "a" Example.one ]} : gmap string rowStats) ⊆
    <[ "/a/much/longer/route" := Example.row "b" Example.one ]>
      {[ "/a" := Example.row "a" Example.one ]}) as Hsub.
  { apply insert_subseteq. reflexivity. }
  split; [exact Hsub|]. exact (sortRoutes_width_mono _ _ Hsub).
Defined.

Lemma route_column_width_witness :
  (∀ s, (String.length s ≤ String.length s)%nat) ∧
  ∃ n, Sprintf_left String.length
         (sortRoutes {[ "/a/much/longer/route" := Example.row "b" Example.one ]}).2 "ROUTE"
       = "ROUTE" +:+ spaces n ∧
       Z.of_nat (String.length "ROUTE" + n) =
         (sortRoutes {[ "/a/much/longer/route" := Example.row "b" Example.one ]}).2.
Proof.
  assert (∀ s, (String.length s ≤ String.length s)%nat) as Hrunes by (intros s; lia).
  split; [exact Hrunes|].
  exact (proj1 (route_column_width String.length
                  {[ "/a/much/longer/route" := Example.row "b" Example.one ]} Hrunes)).
Defined.

Lemma printRouteJson_no_null_witness :
  jsonEntry {[ "" := Example.row "web" Example.one ]} ""
    ∈ jsonEntries {[ "" := Example.row "web" Example.one ]}
        (sortRoutes {[ "" := Example.row "web" Example.one ]}).1 ∧
  ∃ k row,
    ({[ "" := Example.row "web" Example.one ]} : gmap string rowStats) !! k = Some row ∧
    jsonEntry {[ "" := Example.row "web" Example.one ]} ""
      = jsonEntry {[ "" := Example.row "web" Example.one ]} k ∧
    Service (jsonEntry {[ "" := Example.row "web" Example.one ]} "") = dst row ∧
    ∀ name value,
      json_field name (jsonEntry {[ "" := Example.row "web" Example.one ]} "") = Some value →
      value ≠ JNull.
Proof.
  assert (jsonEntry {[ "" := Example.row "web" Example.one ]} ""
    ∈ jsonEntries {[ "" := Example.row "web" Example.one ]}
        (sortRoutes {[ "" := Example.row "web" Example.one ]}).1) as Hin.
  { vm_compute. left. }
  split; [exact Hin|]. exact (printRouteJson_no_null _ _ Hin).
Defined.

Lemma writeRouteStatsToBuffer_table_mode_witness :
  (outputFormat (optionsBase (Example.options "" "" "" "" false)) = "table" ∨
   outputFormat (optionsBase (Example.options "" "" "" "" false)) = "") ∧
  ((Example_writeRouteStatsToBuffer
      (pb.Response_Routes
         [ {| pb.Route := "/a"; pb.TimeWindow := "1m"; pb.Stats := None; pb.Dst := "web" |} ])
      (Example.options "" "" "" "" false)).1 = Exited 0 ↔
   Forall (λ r : pb.Row Example.BasicStats, pb.Stats r = None)
     [ {| pb.Route := "/a"; pb.TimeWindow := "1m"; pb.Stats := None; pb.Dst := "web" |} ]) ∧
  Example_writeRouteStatsToBuffer pb.Response_NotSet (Example.options "" "" "" "" false)
    = (Panicked, []).
Proof.
  split; [by right|]. split.
  - exact (proj1 (writeRouteStatsToBuffer_table_mode Example.BasicStats Example.Request
             latencyP50 latencyP95 latencyP99 (λ s _, requestRate s) successRate tlsPercent
             Example.quote Example.formatFloat Example.Sprintf_f String.length
             (pb.Response_Routes
                [ {| pb.Route := "/a"; pb.TimeWindow := "1m"; pb.Stats := None;
                     pb.Dst := "web" |} ])
             (Example.options "" "" "" "" false) (or_intror eq_refl))).
  - exact (writeRouteStatsToBuffer_table_mode Example.BasicStats Example.Request
             latencyP50 latencyP95 latencyP99 (λ s _, requestRate s) successRate tlsPercent
             Example.quote Example.formatFloat Example.Sprintf_f String.length
             pb.Response_NotSet
             (Example.options "" "" "" "" false) (or_intror eq_refl)).
Defined.

Lemma writeRouteStatsToBuffer_json_mode_witness :
  outputFormat (optionsBase (Example.options "json" "" "" "" false)) = "json" ∧
  (Forall (λ r : pb.Row Example.BasicStats, pb.Stats r = None)
     [ {| pb.Route := "/a"; pb.TimeWindow := "1m"; pb.Stats := None; pb.Dst := "web" |} ] →
   Example_writeRouteStatsToBuffer
     (pb.Response_Routes
        [ {| pb.Route := "/a"; pb.TimeWindow := "1m"; pb.Stats := None; pb.Dst := "web" |} ])
     (Example.options "json" "" "" "" false) =
   (Ret tt, [EvWrite ("[]" +:+ nl)])) ∧
  Example_writeRouteStatsToBuffer (pb.Response_Error "no such resource")
    (Example.options "json" "" "" "" false) = (Panicked, []).
Proof.
  split; [reflexivity|]. split.
  - exact (proj2 (writeRouteStatsToBuffer_json_mode Example.BasicStats Example.Request
             latencyP50 latencyP95 latencyP99 (λ s _, requestRate s) successRate tlsPercent
             Example.quote Example.formatFloat Example.Sprintf_f String.length
             (pb.Response_Routes
                [ {| pb.Route := "/a"; pb.TimeWindow := "1m"; pb.Stats := None;
                     pb.Dst := "web" |} ])
             (Example.options "json" "" "" "" false) eq_refl)).
  - exact (writeRouteStatsToBuffer_json_mode Example.BasicStats Example.Request
             latencyP50 latencyP95 latencyP99 (λ s _, requestRate s) successRate tlsPercent
             Example.quote Example.formatFloat Example.Sprintf_f String.length
             (pb.Response_Error "no such resource")
             (Example.options "json" "" "" "" false) eq_refl).
Defined.

Lemma RunE_build_error_witness :
  Example_buildTopRoutesRequest "deploy/web" (Example.options "table" "x" "" "" true) =
    (Ret (inl errToAll), [EvBuildResource "test" "deploy/web"]) ∧
  Example_RunE [] "deploy/web" (Example.options "table" "x" "" "" true) =
    (Ret (Some (fmt_Errorf buildErrorPrefix errToAll)),
     [EvBuildResource "test" "deploy/web"]).
Proof.
  split; [reflexivity|].
  exact (proj1 (RunE_build_error Example.BasicStats Example.Request
           latencyP50 latencyP95 latencyP99 (λ s _, requestRate s) successRate tlsPercent
           Example.BuildResource Example.BuildTopRoutesRequest Example.client
           (Example.TopRoutes []) Example.quote Example.formatFloat Example.Sprintf_f
           String.length Example.flush Example.renderStats Example.Print
           "deploy/web" (Example.options "table" "x" "" "" true)
           errToAll [EvBuildResource "test" "deploy/web"] eq_refl)).
Defined.

Lemma RunE_api_error_witness :
  Example_buildTopRoutesRequest "deploy/web" (Example.options "json" "" "" "" false) =
    (Ret (inr (requestParams_for (Example.options "json" "" "" "" false)
                 {| pb.Namespace := "test"; pb.Type_ := "deployment"; pb.Name := "deploy/web" |}
                 "")),
     [EvBuildResource "test" "deploy/web";
      EvBuildTopRoutesRequest
        (requestParams_for (Example.options "json" "" "" "" false)
           {| pb.Namespace := "test"; pb.Type_ := "deployment"; pb.Name := "deploy/web" |}
           "")]) ∧
  Example.client = (Ret tt, []) ∧
  RunE Example.BasicStats Example.Request
    latencyP50 latencyP95 latencyP99 (λ s _, requestRate s) successRate tlsPercent
    Example.BuildResource Example.BuildTopRoutesRequest Example.client
    (λ _, inl (errors_New "unavailable")) Example.quote Example.formatFloat
    Example.Sprintf_f String.length Example.flush Example.renderStats Example.Print
    "deploy/web" (Example.options "json" "" "" "" false) =
  (Ret (Some (fmt_Errorf "TopRoutes API error: " (errors_New "unavailable"))),
   [EvBuildResource "test" "deploy/web";
    EvBuildTopRoutesRequest
      (requestParams_for (Example.options "json" "" "" "" false)
         {| pb.Namespace := "test"; pb.Type_ := "deployment"; pb.Name := "deploy/web" |}
         "")] ++ [] ++
   [EvTopRoutes
      (requestParams_for (Example.options "json" "" "" "" false)
         {| pb.Namespace := "test"; pb.Type_ := "deployment"; pb.Name := "deploy/web" |}
         "")]).
Proof.
  split; [reflexivity|]. split; [reflexivity|].
  exact (proj1 (RunE_api_error Example.BasicStats Example.Request
           latencyP50 latencyP95 latencyP99 (λ s _, requestRate s) successRate tlsPercent
           Example.BuildResource Example.BuildTopRoutesRequest Example.client
           (λ _, inl (errors_New "unavailable")) Example.quote Example.formatFloat
           Example.Sprintf_f String.length Example.flush Example.renderStats Example.Print
           "deploy/web" (Example.options "json" "" "" "" false) _ _ _ eq_refl eq_refl)
         (errors_New "unavailable") eq_refl).
Defined.

Lemma RunE_json_witness :
  Example.client = (Ret tt, []) ∧
  Example.TopRoutes []
    (requestParams_for (Example.options "json" "" "" "" false)
       {| pb.Namespace := "test"; pb.Type_ := "deployment"; pb.Name := "deploy/web" |} "")
    = inr (pb.Response_Routes []) ∧
  outputFormat (optionsBase (Example.options "json" "" "" "" false)) = "json" ∧
  ∃ ev,
    Example_RunE [] "deploy/web" (Example.options "json" "" "" "" false) =
      (Ret (Example.Print
              (Example.renderStats (Example.flush (written [ev]))
                 (optionsBase (Example.options "json" "" "" "" false)))),
       [EvBuildResource "test" "deploy/web";
        EvBuildTopRoutesRequest
          (requestParams_for (Example.options "json" "" "" "" false)
             {| pb.Namespace := "test"; pb.Type_ := "deployment"; pb.Name := "deploy/web" |}
             "")] ++ [] ++
       [EvTopRoutes
          (requestParams_for (Example.options "json" "" "" "" false)
             {| pb.Namespace := "test"; pb.Type_ := "deployment"; pb.Name := "deploy/web" |}
             "");
        ev;
        EvStdout (Example.renderStats (Example.flush (written [ev]))
                    (optionsBase (Example.options "json" "" "" "" false)))]).
Proof.
  split; [reflexivity|]. split; [reflexivity|]. split; [reflexivity|].
  destruct (RunE_json Example.BasicStats Example.Request
           latencyP50 latencyP95 latencyP99 (λ s _, requestRate s) successRate tlsPercent
           Example.BuildResource Example.BuildTopRoutesRequest Example.client
           (Example.TopRoutes []) Example.quote Example.formatFloat
           Example.Sprintf_f String.length Example.flush Example.renderStats Example.Print
           "deploy/web" (Example.options "json" "" "" "" false) _ _ _ []
           eq_refl eq_refl eq_refl eq_refl) as (ev & Hev & _).
  exists ev. exact Hev.
Defined.

Lemma toServiceNamespace_ignored_witness :
  toService (Example.options "table" "" "" "example.com" false) = "" ∧
  Example_buildTopRoutesRequest "deploy/web"
    (with_toServiceNamespace "other" (Example.options "table" "" "" "example.com" false)) =
  Example_buildTopRoutesRequest "deploy/web"
    (Example.options "table" "" "" "example.com" false).
Proof.
  split; [reflexivity|].
  exact (toServiceNamespace_ignored Example.Request Example.BuildResource
           Example.BuildTopRoutesRequest "deploy/web" "other"
           (Example.options "table" "" "" "example.com" false) eq_refl).
Defined.

Lemma buildTopRoutesRequest_external_witness :
  validateOutputFormat (optionsBase (Example.options "table" "" "prod" "example.com" false))
    = None ∧
  Example.BuildResource "test" "deploy/web" =
    inr {| pb.Namespace := "test"; pb.Type_ := "deployment"; pb.Name := "deploy/web" |} ∧
  toService (Example.options "table" "" "prod" "example.com" false) = "" ∧
  toExternal (Example.options "table" "" "prod" "example.com" false) ≠ "" ∧
  toAll (Example.options "table" "" "prod" "example.com" false) = false ∧
  util.ToService
    (requestParams_for (Example.options "table" "" "prod" "example.com" false)
       {| pb.Namespace := "test"; pb.Type_ := "deployment"; pb.Name := "deploy/web" |}
       (toExternal (Example.options "table" "" "prod" "example.com" false)))
    = toExternal (Example.options "table" "" "prod" "example.com" false).
Proof.
  assert (toExternal (Example.options "table" "" "prod" "example.com" false) ≠ "")
    as Hx by discriminate.
  split; [reflexivity|]. split; [reflexivity|]. split; [reflexivity|].
  split; [exact Hx|]. split; [reflexivity|].
  exact (proj1 (buildTopRoutesRequest_external Example.Request Example.BuildResource
           Example.BuildTopRoutesRequest "deploy/web"
           (Example.options "table" "" "prod" "example.com" false)
           {| pb.Namespace := "test"; pb.Type_ := "deployment"; pb.Name := "deploy/web" |}
           eq_refl eq_refl eq_refl Hx eq_refl)).
Defined.

Lemma newRoutesOptions_request_witness :
  validateOutputFormat {| namespace := "default"; timeWindow := "1m"; outputFormat := "" |}
    = None ∧
  Example.BuildResource "default" "deploy/web" =
    inr {| pb.Namespace := "default"; pb.Type_ := "deployment"; pb.Name := "deploy/web" |} ∧
  util.ToService
    (requestParams_for
       (newRoutesOptions {| namespace := "default"; timeWindow := "1m"; outputFormat := "" |})
       {| pb.Namespace := "default"; pb.Type_ := "deployment"; pb.Name := "deploy/web" |} "")
    = "".
Proof.
  split; [reflexivity|]. split; [reflexivity|].
  exact (proj1 (newRoutesOptions_request Example.Request Example.BuildResource
           Example.BuildTopRoutesRequest
           {| namespace := "default"; timeWindow := "1m"; outputFormat := "" |}
           "deploy/web"
           {| pb.Namespace := "default"; pb.Type_ := "deployment"; pb.Name := "deploy/web" |}
           eq_refl eq_refl)).
Defined.
